(** * AI customer-support backend (aisupport.py): model and properties

    The development embeds the keyword classifier, the wrapper around the
    generative-model call, the response clean-up and the three stateful
    endpoint handlers of [aisupport.py], and proves the properties stated
    for them.

    Text is a Rocq [string]; a character is read as the code point with
    the same number (0..255).  On that range Python's [str.lower] and
    [str.strip] are the functions [lower] and [strip] below. *)

From Stdlib Require Import String Ascii.
From stdpp Require Import base list strings pretty gmap fin_maps.

Local Open Scope string_scope.
Local Open Scope nat_scope.

(** ** Python string primitives *)

Module Str.

(** [c.lower()] on code points below 256: A-Z and the Latin-1 capitals
    (0xC0-0xDE without the multiplication sign 0xD7) move up by 32. *)
Definition lower_char (c : ascii) : ascii :=
  let n := nat_of_ascii c in
  if ((65 <=? n) && (n <=? 90)) || ((192 <=? n) && (n <=? 222) && negb (n =? 215))
  then ascii_of_nat (n + 32) else c.

Fixpoint lower (s : string) : string :=
  match s with
  | EmptyString => EmptyString
  | String c r => String (lower_char c) (lower r)
  end.

(** [c.isspace()] on code points below 256. *)
Definition is_space (c : ascii) : bool :=
  let n := nat_of_ascii c in
  ((9 <=? n) && (n <=? 13)) || ((28 <=? n) && (n <=? 32)) || (n =? 133) || (n =? 160).

(** [s.startswith(p)]. *)
Fixpoint startswith (p s : string) : bool :=
  match p, s with
  | EmptyString, _ => true
  | String _ _, EmptyString => false
  | String a p', String b s' => if Ascii.eqb a b then startswith p' s' else false
  end.

(** [w in s]: [w] occurs in [s] as a contiguous substring. *)
Fixpoint contains (w s : string) : bool :=
  startswith w s ||
  match s with
  | EmptyString => false
  | String _ r => contains w r
  end.

Fixpoint lstrip (s : string) : string :=
  match s with
  | EmptyString => EmptyString
  | String c r => if is_space c then lstrip r else s
  end.

Fixpoint rstrip (s : string) : string :=
  match s with
  | EmptyString => EmptyString
  | String c r =>
      match rstrip r with
      | EmptyString => if is_space c then EmptyString else String c EmptyString
      | r' => String c r'
      end
  end.

(** [s.strip()]. *)
Definition strip (s : string) : string := rstrip (lstrip s).

(** [s.replace(old, new)] for a non-empty [old]: every occurrence found
    scanning left to right is replaced, and the scan resumes after the
    occurrence.  [skip] counts the characters of the current occurrence
    still to be dropped. *)
Fixpoint replace_from (old new : string) (skip : nat) (s : string) : string :=
  match s with
  | EmptyString => EmptyString
  | String c r =>
      match skip with
      | S k => replace_from old new k r
      | O =>
          if startswith old s
          then new ++ replace_from old new (String.length old - 1) r
          else String c (replace_from old new 0 r)
      end
  end.

(** With an empty [old] Python puts [new] before every character and at
    the end. *)
Fixpoint intersperse (new s : string) : string :=
  match s with
  | EmptyString => new
  | String c r => new ++ String c (intersperse new r)
  end.

Definition replace (old new s : string) : string :=
  match old with
  | EmptyString => intersperse new s
  | String _ _ => replace_from old new 0 s
  end.

End Str.

(** ** The industry classifier: [detect_industry] *)

Definition banking_keywords : list string :=
  ["account"; "bank"; "credit"; "debit"; "loan"; "mortgage"; "transaction";
   "payment"; "balance"].
Definition insurance_keywords : list string :=
  ["claim"; "policy"; "premium"; "coverage"; "accident"; "medical"; "health";
   "auto insurance"].
Definition it_keywords : list string :=
  ["password"; "login"; "vpn"; "system"; "software"; "network"; "email";
   "access"; "computer"].

(** [sum(1 for word in keywords if word in text)]. *)
Definition keyword_score (keywords : list string) (text : string) : nat :=
  length (List.filter (fun word => Str.contains word text) keywords).

(** [f"{subject} {body}".lower()]. *)
Definition industry_text (subject body : string) : string :=
  Str.lower (subject ++ " " ++ body).

Definition banking_score (subject body : string) : nat :=
  keyword_score banking_keywords (industry_text subject body).
Definition insurance_score (subject body : string) : nat :=
  keyword_score insurance_keywords (industry_text subject body).
Definition it_score (subject body : string) : nat :=
  keyword_score it_keywords (industry_text subject body).

Definition detect_industry (subject body : string) : string :=
  let text := industry_text subject body in
  let banking_score := keyword_score banking_keywords text in
  let insurance_score := keyword_score insurance_keywords text in
  let it_score := keyword_score it_keywords text in
  if (insurance_score <=? banking_score) && (it_score <=? banking_score)
  then "banking"
  else if it_score <=? insurance_score then "insurance"
  else if 0 <? it_score then "it_support"
  else "other".


(** ** JSON values

    The value [json.loads] builds and [json.dumps] prints.  An object keeps
    its items in insertion order, as a Python [dict] does; a number is kept
    by the text Python prints for it. *)

#[warning="-register-all"]
Inductive json : Type :=
| JNull
| JBool (b : bool)
| JNumber (repr : string)
| JString (s : string)
| JArray (items : list json)
| JObject (items : list (string * json)).

(** The double quote, the line feed and the carriage return, which the
    string literals below are written around. *)
Definition dq : string := String (ascii_of_nat 34) EmptyString.
Definition nl : string := String (ascii_of_nat 10) EmptyString.
Definition cr : string := String (ascii_of_nat 13) EmptyString.

Definition hex_digit (n : nat) : ascii :=
  ascii_of_nat (if n <? 10 then 48 + n else 87 + n).

(** One character of a string as [json.dumps] writes it with the default
    [ensure_ascii=True]: the quote, the backslash and the short control
    escapes, [\u00XX] for every other character outside 0x20..0x7E. *)
Definition json_escape_char (c : ascii) : string :=
  let n := nat_of_ascii c in
  if n =? 34 then "\" ++ dq
  else if n =? 92 then "\\"
  else if n =? 10 then "\n"
  else if n =? 13 then "\r"
  else if n =? 9 then "\t"
  else if n =? 8 then "\b"
  else if n =? 12 then "\f"
  else if (32 <=? n) && (n <=? 126) then String c EmptyString
  else "\u00" ++ String (hex_digit (n / 16)) (String (hex_digit (n mod 16)) EmptyString).

Fixpoint json_escape (s : string) : string :=
  match s with
  | EmptyString => EmptyString
  | String c r => json_escape_char c ++ json_escape r
  end.

Definition json_quote (s : string) : string := dq ++ json_escape s ++ dq.

(** [", ".join(parts)]. *)
Fixpoint join_comma (parts : list string) : string :=
  match parts with
  | [] => EmptyString
  | [p] => p
  | p :: rest => p ++ ", " ++ join_comma rest
  end.

(** [json.dumps(value)] with the default separators. *)
Fixpoint json_dumps (value : json) : string :=
  match value with
  | JNull => "null"
  | JBool true => "true"
  | JBool false => "false"
  | JNumber repr => repr
  | JString s => json_quote s
  | JArray items => "[" ++ join_comma (List.map json_dumps items) ++ "]"
  | JObject items =>
      "{" ++ join_comma
               (List.map (fun kv => json_quote (fst kv) ++ ": " ++ json_dumps (snd kv)) items)
          ++ "}"
  end.

(** [d[key]] on the items of a dict. *)
Fixpoint dict_get (key : string) (items : list (string * json)) : option json :=
  match items with
  | [] => None
  | (k, v) :: rest => if String.eqb k key then Some v else dict_get key rest
  end.

(** ** Exceptions and the handler monad

    Every class below derives from Python's [Exception], so a handler's
    [except Exception] clause catches each of them, [HTTPException]
    included. *)

Inductive exn : Type :=
| HTTPException (status_code : nat) (detail : string)
| JSONDecodeError (doc : string)
| KeyError (key : string)
| TypeError (msg : string)
| ValidationError (msg : string)
| ServiceError (msg : string).

Inductive result (A : Type) : Type :=
| Ok (a : A)
| Raise (e : exn).
Arguments Ok {A} a.
Arguments Raise {A} e.

Module EmailSubmission.
Record t : Type := { from_email : string; subject : string; body : string }.
End EmailSubmission.

(** The dict [email_record] kept in [emails_db]; [EmailResponse] has the
    same eight fields, all strings. *)
Module EmailRecord.
Record t : Type := {
  id : string;
  from_email : string;
  subject : string;
  body : string;
  timestamp : string;
  industry : string;
  sentiment : string;
  status : string
}.
End EmailRecord.

Definition EmailResponse (email_record : EmailRecord.t) : EmailRecord.t := email_record.

Module AnalysisRequest.
Record t : Type := { email_id : string }.
End AnalysisRequest.

Module ActionExecution.
Record t : Type := { email_id : string; action_id : string; action_label : string }.
End ActionExecution.

(** The two process-wide dicts, and the prompts sent to the generative
    model so far (oldest first), which the program does not keep but the
    properties below speak about. *)
Record world : Type := {
  emails_db : gmap string EmailRecord.t;
  analysis_cache : gmap string json;
  prompts_sent : list string
}.

Definition init_world : world :=
  {| emails_db := ∅; analysis_cache := ∅; prompts_sent := [] |}.

(** A computation reads and writes the world and returns or raises; what
    it wrote before raising stays written. *)
Definition Py (A : Type) : Type := world -> result A * world.

Definition ret {A} (a : A) : Py A := fun w => (Ok a, w).
Definition raise {A} (e : exn) : Py A := fun w => (Raise e, w).
Definition bind {A B} (c : Py A) (k : A -> Py B) : Py B :=
  fun w => match c w with
           | (Ok a, w') => k a w'
           | (Raise e, w') => (Raise e, w')
           end.
Definition lift {A} (r : result A) : Py A := fun w => (r, w).

(** [try: body / except Exception as e: handler e]. *)
Definition try_except {A} (body : Py A) (handler : exn -> Py A) : Py A :=
  fun w => match body w with
           | (Ok a, w') => (Ok a, w')
           | (Raise e, w') => handler e w'
           end.

Notation "x <- c ;; k" := (bind c (fun x => k))
  (at level 100, c at next level, right associativity).
Notation "c ;;; k" := (bind c (fun _ => k))
  (at level 100, right associativity).

Definition read_emails_db : Py (gmap string EmailRecord.t) := fun w => (Ok (emails_db w), w).
Definition read_analysis_cache : Py (gmap string json) := fun w => (Ok (analysis_cache w), w).

(** [emails_db[email_id] = email_record]. *)
Definition store_email (email_id : string) (email_record : EmailRecord.t) : Py unit :=
  fun w => (Ok tt, {| emails_db := <[email_id := email_record]> (emails_db w);
                      analysis_cache := analysis_cache w;
                      prompts_sent := prompts_sent w |}).

(** [analysis_cache[email_id] = analysis_result]. *)
Definition store_analysis (email_id : string) (analysis_result : json) : Py unit :=
  fun w => (Ok tt, {| emails_db := emails_db w;
                      analysis_cache := <[email_id := analysis_result]> (analysis_cache w);
                      prompts_sent := prompts_sent w |}).

(** [value[key]]: a dict answers or raises [KeyError]; nothing else that
    [json.loads] builds can be indexed by a string. *)
Definition getitem (value : json) (key : string) : Py json :=
  match value with
  | JObject items =>
      match dict_get key items with
      | Some v => ret v
      | None => raise (KeyError key)
      end
  | _ => raise (TypeError "indices must be integers")
  end.

(** ** What the program takes from its libraries

    [json.loads] ([None] stands for [JSONDecodeError]), the two pydantic
    response models built from a parsed value, [str(e)] of an exception and
    the text an f-string gives a parsed value. *)
Class Runtime : Type := {
  AnalysisResponse : Type;
  ActionResponse : Type;
  json_loads : string -> option json;
  new_AnalysisResponse : json -> result AnalysisResponse;
  new_ActionResponse : json -> result ActionResponse;
  exn_str : exn -> string;
  format_value : json -> string
}.

(** What [model.generate_content(prompt)] followed by [response.text] does
    during one request. *)
Inductive gemini_reply : Type :=
| Text (text : string)
| Fails (e : exn).

Definition gemini : Type := string -> gemini_reply.

(** ** The call to the generative model: [call_gemini_api] *)

Definition fallback_analysis : json :=
  JObject [
    ("industry", JString "unknown");
    ("confidence", JNumber "0.5");
    ("categorization", JObject [
        ("level1", JString "General");
        ("level2", JString "Support");
        ("level3", JString "Inquiry")]);
    ("analysis", JObject [
        ("sentiment", JString "neutral");
        ("urgency", JString "medium");
        ("summary", JString "Customer inquiry received");
        ("customer_type", JString "individual");
        ("issue_complexity", JString "moderate")]);
    ("suggested_actions", JArray [
        JObject [
          ("id", JString "acknowledge");
          ("label", JString "Acknowledge Receipt");
          ("description", JString "Send acknowledgment to customer");
          ("api_endpoint", JString "/api/acknowledge");
          ("priority", JString "primary")]]);
    ("initial_reply_draft", JString "Thank you for contacting us. We have received your inquiry and will respond shortly.");
    ("next_steps", JArray [JString "Review inquiry"; JString "Contact customer"]);
    ("estimated_resolution", JString "24 hours")].

Definition generate_content (model : gemini) (prompt : string) : Py string :=
  fun w => (match model prompt with
            | Text text => Ok text
            | Fails e => Raise e
            end,
            {| emails_db := emails_db w;
               analysis_cache := analysis_cache w;
               prompts_sent := (prompts_sent w ++ [prompt])%list |}).

Definition call_gemini_api (model : gemini) (prompt : string) : Py string :=
  try_except (generate_content model prompt)
             (fun _ => ret (json_dumps fallback_analysis)).

(** ** Cleaning the model's text (the same lines in both handlers) *)

Definition fence : string := "```".
Definition fence_json : string := "```json".

Definition clean_response (response : string) : string :=
  let clean_response := Str.strip response in
  let clean_response :=
    if Str.startswith fence_json clean_response
    then Str.replace (nl ++ fence) "" (Str.replace (fence_json ++ nl) "" clean_response)
    else clean_response in
  let clean_response :=
    if Str.startswith fence clean_response
    then Str.replace (nl ++ fence) "" (Str.replace (fence ++ nl) "" clean_response)
    else clean_response in
  clean_response.

(** ** The endpoint handlers *)

Definition analysis_prompt_schema : string :=
  "

        Respond with ONLY a valid JSON object:
        {
            " ++ dq ++ "industry" ++ dq ++ ": " ++ dq ++ "banking/insurance/it_support/healthcare/retail/other" ++ dq ++ ",
            " ++ dq ++ "confidence" ++ dq ++ ": 0.95,
            " ++ dq ++ "categorization" ++ dq ++ ": {
                " ++ dq ++ "level1" ++ dq ++ ": " ++ dq ++ "main department" ++ dq ++ ",
                " ++ dq ++ "level2" ++ dq ++ ": " ++ dq ++ "category" ++ dq ++ ", 
                " ++ dq ++ "level3" ++ dq ++ ": " ++ dq ++ "specific issue" ++ dq ++ "
            },
            " ++ dq ++ "analysis" ++ dq ++ ": {
                " ++ dq ++ "sentiment" ++ dq ++ ": " ++ dq ++ "positive/neutral/negative" ++ dq ++ ",
                " ++ dq ++ "urgency" ++ dq ++ ": " ++ dq ++ "low/medium/high" ++ dq ++ ",
                " ++ dq ++ "summary" ++ dq ++ ": " ++ dq ++ "brief summary" ++ dq ++ ",
                " ++ dq ++ "customer_type" ++ dq ++ ": " ++ dq ++ "individual/business/premium" ++ dq ++ ",
                " ++ dq ++ "issue_complexity" ++ dq ++ ": " ++ dq ++ "simple/moderate/complex" ++ dq ++ "
            },
            " ++ dq ++ "suggested_actions" ++ dq ++ ": [
                {
                    " ++ dq ++ "id" ++ dq ++ ": " ++ dq ++ "action_id" ++ dq ++ ",
                    " ++ dq ++ "label" ++ dq ++ ": " ++ dq ++ "Button Label" ++ dq ++ ",
                    " ++ dq ++ "description" ++ dq ++ ": " ++ dq ++ "What this does" ++ dq ++ ",
                    " ++ dq ++ "api_endpoint" ++ dq ++ ": " ++ dq ++ "/api/endpoint" ++ dq ++ ",
                    " ++ dq ++ "priority" ++ dq ++ ": " ++ dq ++ "primary/secondary" ++ dq ++ "
                }
            ],
            " ++ dq ++ "initial_reply_draft" ++ dq ++ ": " ++ dq ++ "Professional reply draft" ++ dq ++ ",
            " ++ dq ++ "next_steps" ++ dq ++ ": [" ++ dq ++ "step1" ++ dq ++ ", " ++ dq ++ "step2" ++ dq ++ "],
            " ++ dq ++ "estimated_resolution" ++ dq ++ ": " ++ dq ++ "time estimate" ++ dq ++ "
        }

        DO NOT include backticks, code blocks, or any text outside the JSON object.
        ".

Definition analysis_prompt (email : EmailRecord.t) : string :=
  "
        Analyze this customer support email and provide appropriate categorization and actions based on detected industry.

        Email ID: " ++ EmailRecord.id email ++ "
        Subject: " ++ EmailRecord.subject email ++ "
        Body: " ++ EmailRecord.body email ++ "
        From: " ++ EmailRecord.from_email email ++ "
        Current Status: " ++ EmailRecord.status email ++ "" ++ analysis_prompt_schema.

Definition fallback_prompt : string := "Return a simple JSON with basic analysis".

Definition action_prompt_schema : string :=
  "
        
        Generate realistic mock API response data and an updated reply draft.
        
        Respond with ONLY valid JSON:
        {
            " ++ dq ++ "tool_response" ++ dq ++ ": {
                " ++ dq ++ "status" ++ dq ++ ": " ++ dq ++ "success/error" ++ dq ++ ",
                " ++ dq ++ "data" ++ dq ++ ": " ++ dq ++ "relevant data object based on the tool type" ++ dq ++ ",
                " ++ dq ++ "message" ++ dq ++ ": " ++ dq ++ "brief status message" ++ dq ++ ",
                " ++ dq ++ "timestamp" ++ dq ++ ": " ++ dq ++ "current timestamp" ++ dq ++ "
            },
            " ++ dq ++ "updated_reply_draft" ++ dq ++ ": " ++ dq ++ "Updated professional reply incorporating the fetched data" ++ dq ++ "
        }
        
        DO NOT include backticks or code blocks.
        ".

Definition action_prompt (action_label industry summary : string) (email : EmailRecord.t)
  : string :=
  "
        A customer support agent clicked the " ++ dq ++ action_label ++ dq ++ " button for this " ++ industry ++ " customer issue:
        
        Customer Issue: " ++ dq ++ summary ++ dq ++ "
        Original Email: " ++ dq ++ EmailRecord.body email ++ dq ++ "
        Email ID: " ++ EmailRecord.id email ++ "
        Current Industry: " ++ industry ++ "" ++ action_prompt_schema.

(** Static data served by the two read-only listings. *)
Definition EMAIL_TEMPLATES : json :=
  JObject [
    ("banking", JArray [
        JObject [
          ("subject", JString "Account Access Issue - Unable to Login");
          ("body", JString "Hello, I'm unable to access my online banking account. I've tried resetting my password multiple times but still can't log in. My account number is 123456789. Please help me regain access as I need to make an urgent transfer.");
          ("category", JString "Account Access")];
        JObject [
          ("subject", JString "Credit Card Blocked - Need Immediate Help");
          ("body", JString "Hi, My credit card ending in 1234 has been blocked since this morning. I tried making a purchase but the transaction was declined. I have important payments due today. Can you please unblock my card immediately?");
          ("category", JString "Card Services")];
        JObject [
          ("subject", JString "Loan Application Status Inquiry");
          ("body", JString "Dear Team, I submitted my home loan application (Reference: HL-2024-567) three weeks ago but haven't received any updates. Could you please check the status and let me know if any additional documents are required?");
          ("category", JString "Loan Services")]]);
    ("insurance", JArray [
        JObject [
          ("subject", JString "Auto Insurance Claim - Accident Report");
          ("body", JString "Hello, I was involved in a car accident yesterday and need to file a claim. The incident happened at 3 PM on Main Street. The other driver was at fault. My policy number is POL-789456. Please guide me through the claim process.");
          ("category", JString "Auto Claims")];
        JObject [
          ("subject", JString "Health Insurance Coverage Question");
          ("body", JString "Hi, I'm scheduled for surgery next month and want to confirm my coverage. The procedure code is CPT-12345. My policy number is HIB-654321. What would be my out-of-pocket expenses?");
          ("category", JString "Health Coverage")];
        JObject [
          ("subject", JString "Premium Payment Issue - Auto Debit Failed");
          ("body", JString "Dear Sir/Madam, My auto-debit for insurance premium failed last month. I've updated my bank details but want to ensure there's no lapse in coverage. Policy number: LIFE-987654. Please confirm payment status.");
          ("category", JString "Premium Services")]]);
    ("it_support", JArray [
        JObject [
          ("subject", JString "VPN Connection Problem - Cannot Access Network");
          ("body", JString "Hi IT Team, I'm working from home and cannot connect to the company VPN. Getting error code 691. This is blocking my access to internal systems. Please help urgently as I have a client presentation at 2 PM.");
          ("category", JString "Network Access")];
        JObject [
          ("subject", JString "Email Account Locked - Need Immediate Resolution");
          ("body", JString "Hello, My email account has been locked due to multiple failed login attempts. Username: john.doe. I need access restored immediately as I'm expecting important client communications. Please reset my account.");
          ("category", JString "Account Management")];
        JObject [
          ("subject", JString "Software License Expired - Need Renewal");
          ("body", JString "Hi, The license for Adobe Creative Suite on my workstation has expired. I need this software for ongoing projects. Employee ID: EMP123. Please renew the license or provide alternative access.");
          ("category", JString "Software Licensing")]])].

Definition base_emails : list (string * json) :=
  match
  JObject [
    ("banking", JArray [
        JObject [
          ("id", JString "SR000001");
          ("status", JString "In Progress");
          ("category", JString "TransactionIssue");
          ("from_email", JString "customer1@email.com");
          ("subject", JString "Transaction Failed - Need Refund");
          ("body", JString "Hello, I made a payment of $500 yesterday but the transaction failed. The amount was debited from my account but the recipient did not receive it. Please help me get a refund.");
          ("timestamp", JString "11:30:22");
          ("sentiment", JString "negative");
          ("priority", JString "high");
          ("attachments", JArray [JString "transaction_receipt.pdf"]);
          ("industry", JString "banking");
          ("unread", JBool false)];
        JObject [
          ("id", JString "SR000002");
          ("status", JString "Resolved");
          ("category", JString "AccountActivation");
          ("from_email", JString "newcustomer@email.com");
          ("subject", JString "Account Successfully Activated");
          ("body", JString "Thank you for activating my savings account. I can now access online banking and mobile app. Great service!");
          ("timestamp", JString "10:15:08");
          ("sentiment", JString "positive");
          ("priority", JString "low");
          ("attachments", JArray []);
          ("industry", JString "banking");
          ("unread", JBool false)]]);
    ("insurance", JArray [
        JObject [
          ("id", JString "SR000001");
          ("status", JString "New");
          ("category", JString "ClaimStatus");
          ("from_email", JString "policyholder@email.com");
          ("subject", JString "Auto Claim Status Update Required");
          ("body", JString "I submitted claim CLM-2024-789 two weeks ago for my car accident. Haven't received any updates. Please provide status and next steps.");
          ("timestamp", JString "09:45:12");
          ("sentiment", JString "neutral");
          ("priority", JString "medium");
          ("attachments", JArray [JString "police_report.pdf"; JString "photos.zip"]);
          ("industry", JString "insurance");
          ("unread", JBool true)];
        JObject [
          ("id", JString "SR000002");
          ("status", JString "In Progress");
          ("category", JString "PolicyInquiry");
          ("from_email", JString "member@email.com");
          ("subject", JString "Coverage Verification for Surgery");
          ("body", JString "I need to verify if my upcoming knee surgery is covered under my current health plan. Surgery date is March 25th. Policy: HP-456789.");
          ("timestamp", JString "14:20:33");
          ("sentiment", JString "neutral");
          ("priority", JString "medium");
          ("attachments", JArray [JString "doctor_note.pdf"]);
          ("industry", JString "insurance");
          ("unread", JBool false)]]);
    ("it_support", JArray [
        JObject [
          ("id", JString "SR000001");
          ("status", JString "New");
          ("category", JString "SystemAccess");
          ("from_email", JString "employee@company.com");
          ("subject", JString "Unable to Access Shared Drive");
          ("body", JString "I cannot access the shared network drive since this morning. Getting access denied error. This is blocking my work on the quarterly report.");
          ("timestamp", JString "08:30:45");
          ("sentiment", JString "negative");
          ("priority", JString "high");
          ("attachments", JArray []);
          ("industry", JString "it_support");
          ("unread", JBool true)];
        JObject [
          ("id", JString "SR000002");
          ("status", JString "Resolved");
          ("category", JString "SoftwareRequest");
          ("from_email", JString "designer@company.com");
          ("subject", JString "Software Installation Completed");
          ("body", JString "Thank you for installing the new design software on my workstation. Everything is working perfectly now. Great support!");
          ("timestamp", JString "16:10:22");
          ("sentiment", JString "positive");
          ("priority", JString "low");
          ("attachments", JArray []);
          ("industry", JString "it_support");
          ("unread", JBool false)]])]
  with
  | JObject items => items
  | _ => []
  end.

Definition generate_sample_emails (industry : string) : json :=
  match dict_get industry base_emails with
  | Some emails => emails
  | None => default JNull (dict_get "banking" base_emails)
  end.

(** ** What the client sees

    FastAPI answers 200 with the value a handler returns, the status and
    detail of an [HTTPException] it raises, and 500 for any other
    exception. *)
Inductive http_response (A : Type) : Type :=
| Http200 (content : A)
| HttpError (status_code : nat) (detail : string).
Arguments Http200 {A} content.
Arguments HttpError {A} status_code detail.

Definition respond {A} (r : result A) : http_response A :=
  match r with
  | Ok a => Http200 a
  | Raise (HTTPException status_code detail) => HttpError status_code detail
  | Raise _ => HttpError 500 "Internal Server Error"
  end.

Definition status_of {A} (r : http_response A) : nat :=
  match r with
  | Http200 _ => 200
  | HttpError status_code _ => status_code
  end.

(** A request to one of the seven endpoints, with what the outside world
    hands the handler while it runs. *)
Inductive api_call : Type :=
| Root
| GetTemplates
| SubmitEmail (email : EmailSubmission.t) (uuid4 now : string)
| GetEmailsByIndustry (industry : string)
| AnalyzeEmail (request : AnalysisRequest.t) (model : gemini)
| ExecuteAction (request : ActionExecution.t) (model : gemini) (now : string)
| HealthCheck (now : string).

Section Handlers.
Context `{Runtime}.

Definition loads (text : string) : Py json :=
  match json_loads text with
  | Some value => ret value
  | None => raise (JSONDecodeError text)
  end.

Definition internal_error {A} (e : exn) : Py A :=
  raise (HTTPException 500 (exn_str e)).

(** [POST /api/submit-email]; [uuid4] is what [str(uuid.uuid4())] gives this
    call and [now] what [datetime.now().isoformat()] gives. *)
Definition submit_email (email : EmailSubmission.t) (uuid4 now : string)
  : Py EmailRecord.t :=
  try_except
    (let email_id := uuid4 in
     let industry := detect_industry (EmailSubmission.subject email)
                                     (EmailSubmission.body email) in
     let email_record :=
       {| EmailRecord.id := email_id;
          EmailRecord.from_email := EmailSubmission.from_email email;
          EmailRecord.subject := EmailSubmission.subject email;
          EmailRecord.body := EmailSubmission.body email;
          EmailRecord.timestamp := now;
          EmailRecord.industry := industry;
          EmailRecord.sentiment := "neutral";
          EmailRecord.status := "new" |} in
     store_email email_id email_record ;;;
     ret (EmailResponse email_record))
    internal_error.

(** [POST /api/analyze]. *)
Definition analyze_email (request : AnalysisRequest.t) (model : gemini)
  : Py AnalysisResponse :=
  try_except
    (let email_id := AnalysisRequest.email_id request in
     cache <- read_analysis_cache ;;
     match cache !! email_id with
     | Some cached => lift (new_AnalysisResponse cached)
     | None =>
         db <- read_emails_db ;;
         match db !! email_id with
         | None => raise (HTTPException 404 "Email not found")
         | Some email =>
             let prompt := analysis_prompt email in
             response <- call_gemini_api model prompt ;;
             let clean_response := clean_response response in
             analysis_result <-
               try_except (loads clean_response)
                 (fun e =>
                    match e with
                    | JSONDecodeError _ =>
                        response <- call_gemini_api model fallback_prompt ;;
                        loads response
                    | _ => raise e
                    end) ;;
             store_analysis email_id analysis_result ;;;
             lift (new_AnalysisResponse analysis_result)
         end
     end)
    internal_error.

(** The dict built when the model's text for an action does not parse. *)
Definition fallback_action (action_label now : string) : json :=
  JObject [
    ("tool_response", JObject [
        ("status", JString "success");
        ("data", JString "Action executed successfully");
        ("message", JString ("Executed " ++ action_label));
        ("timestamp", JString now)]);
    ("updated_reply_draft",
     JString "Thank you for your inquiry. We have processed your request and will respond shortly.")].

(** [POST /api/execute-action]. *)
Definition execute_action (request : ActionExecution.t) (model : gemini) (now : string)
  : Py ActionResponse :=
  try_except
    (let email_id := ActionExecution.email_id request in
     db <- read_emails_db ;;
     match db !! email_id with
     | None => raise (HTTPException 404 "Email not found")
     | Some email =>
         cache <- read_analysis_cache ;;
         match cache !! email_id with
         | None => raise (HTTPException 404 "Analysis not found")
         | Some analysis =>
             industry <- getitem analysis "industry" ;;
             inner <- getitem analysis "analysis" ;;
             summary <- getitem inner "summary" ;;
             industry' <- getitem analysis "industry" ;;
             let prompt :=
               action_prompt (ActionExecution.action_label request)
                             (format_value industry) (format_value summary) email in
             response <- call_gemini_api model prompt ;;
             let clean_response := clean_response response in
             action_result <-
               try_except (loads clean_response)
                 (fun e =>
                    match e with
                    | JSONDecodeError _ =>
                        ret (fallback_action (ActionExecution.action_label request) now)
                    | _ => raise e
                    end) ;;
             lift (new_ActionResponse action_result)
         end
     end)
    internal_error.

(** The four endpoints that read no state: [GET /], [GET /api/templates],
    [GET /api/emails/{industry}], [GET /api/health]. *)
Definition root : Py json :=
  ret (JObject [("message", JString "AI Customer Support API is running")]).

Definition get_templates : Py json := ret EMAIL_TEMPLATES.

Definition get_emails_by_industry (industry : string) : Py json :=
  try_except (ret (JObject [("emails", generate_sample_emails industry)])) internal_error.

Definition health_check (now : string) : Py json :=
  ret (JObject [("status", JString "healthy"); ("timestamp", JString now)]).

(** ** Sequences of requests *)

(** The world after one request has been served. *)
Definition step (w : world) (r : api_call) : world :=
  match r with
  | Root => snd (root w)
  | GetTemplates => snd (get_templates w)
  | SubmitEmail email uuid4 now => snd (submit_email email uuid4 now w)
  | GetEmailsByIndustry industry => snd (get_emails_by_industry industry w)
  | AnalyzeEmail request model => snd (analyze_email request model w)
  | ExecuteAction request model now => snd (execute_action request model now w)
  | HealthCheck now => snd (health_check now w)
  end.

Definition run (w : world) (requests : list api_call) : world :=
  fold_left step requests w.

(** The identifiers [uuid4] handed out during a sequence of requests. *)
Fixpoint uuids_drawn (requests : list api_call) : list string :=
  match requests with
  | [] => []
  | SubmitEmail _ uuid4 _ :: rest => uuid4 :: uuids_drawn rest
  | _ :: rest => uuids_drawn rest
  end.

End Handlers.

(** ** Auxiliary definitions used in the statements *)

(** The text [call_gemini_api] hands back for a reply of the model. *)
Definition reply_text (r : gemini_reply) : string :=
  match r with
  | Text text => text
  | Fails _ => json_dumps fallback_analysis
  end.

(** The world with one more prompt on record and the two dicts as they were. *)
Definition logged (prompts : list string) (w : world) : world :=
  {| emails_db := emails_db w;
     analysis_cache := analysis_cache w;
     prompts_sent := (prompts_sent w ++ prompts)%list |}.

(** The world with one more cache entry. *)
Definition cached (email_id : string) (value : json) (w : world) : world :=
  {| emails_db := emails_db w;
     analysis_cache := <[email_id := value]> (analysis_cache w);
     prompts_sent := prompts_sent w |}.

(** What a handler's outer [except Exception] makes of a result. *)
Definition guarded `{Runtime} {A} (r : result A) : result A :=
  match r with
  | Ok a => Ok a
  | Raise e => Raise (HTTPException 500 (exn_str e))
  end.

(** The record [submit_email] stores under the identifier it is given. *)
Definition submitted (email : EmailSubmission.t) (uuid4 now : string) : EmailRecord.t :=
  {| EmailRecord.id := uuid4;
     EmailRecord.from_email := EmailSubmission.from_email email;
     EmailRecord.subject := EmailSubmission.subject email;
     EmailRecord.body := EmailSubmission.body email;
     EmailRecord.timestamp := now;
     EmailRecord.industry :=
       detect_industry (EmailSubmission.subject email) (EmailSubmission.body email);
     EmailRecord.sentiment := "neutral";
     EmailRecord.status := "new" |}.

(** The identifier a submission is given has no record yet; any other
    request draws none. *)
Definition fresh_identifier (w : world) (r : api_call) : Prop :=
  match r with
  | SubmitEmail _ uuid4 _ => emails_db w !! uuid4 = None
  | _ => True
  end.

(** Computations that leave both dicts as they found them. *)
Definition keeps_dicts {A} (c : Py A) : Prop :=
  forall w, emails_db (snd (c w)) = emails_db w /\
            analysis_cache (snd (c w)) = analysis_cache w.

(** Every cache key has an email record. *)
Definition cache_backed (w : world) : Prop :=
  forall email_id, is_Some (analysis_cache w !! email_id) -> is_Some (emails_db w !! email_id).

(** A model that answers with the fallback text where [model] fails. *)
Definition never_failing (model : gemini) : gemini :=
  fun prompt => Text (reply_text (model prompt)).

(** The text of a JSON document put between a [```json] line and a closing
    [```] line. *)
Definition fenced (document : string) : string :=
  fence_json ++ nl ++ document ++ nl ++ fence.

(** ** The lexical shape of a JSON document

    What every text [json.loads] accepts has in common (RFC 8259, with
    Python's default [strict=True]): outside string literals only
    white space, punctuation, digits, signs and the letters of the
    literals appear; inside a string literal there is no raw control
    character, and a backslash is followed by one of the escape letters;
    the text does not end inside a string literal. *)
Inductive lex_state : Type := Outside | InString | InEscape.

Definition json_outside_char (n : nat) : bool :=
  (n =? 32) || (n =? 9) || (n =? 10) || (n =? 13)
  || (n =? 123) || (n =? 125) || (n =? 91) || (n =? 93) || (n =? 44) || (n =? 58)
  || ((48 <=? n) && (n <=? 57)) || (n =? 45) || (n =? 43) || (n =? 46)
  || ((97 <=? n) && (n <=? 122)) || ((65 <=? n) && (n <=? 90)).

Definition json_escape_letter (n : nat) : bool :=
  (n =? 34) || (n =? 92) || (n =? 47) || (n =? 98) || (n =? 102) || (n =? 110)
  || (n =? 114) || (n =? 116) || (n =? 117).

Fixpoint json_lexical_from (st : lex_state) (s : string) : bool :=
  match s with
  | EmptyString => match st with Outside => true | _ => false end
  | String c r =>
      let n := nat_of_ascii c in
      match st with
      | Outside =>
          if n =? 34 then json_lexical_from InString r
          else json_outside_char n && json_lexical_from Outside r
      | InString =>
          if n =? 34 then json_lexical_from Outside r
          else if n =? 92 then json_lexical_from InEscape r
          else (32 <=? n) && json_lexical_from InString r
      | InEscape => json_escape_letter n && json_lexical_from InString r
      end
  end.

Definition json_lexical (s : string) : bool := json_lexical_from Outside s.


(** ** Auxiliary definitions for the remaining handlers *)

(** [value[key]] as a result, without the world. *)
Definition subscript (value : json) (key : string) : result json :=
  match value with
  | JObject items =>
      match dict_get key items with
      | Some v => Ok v
      | None => Raise (KeyError key)
      end
  | _ => Raise (TypeError "indices must be integers")
  end.

(** The two values [execute_action] reads from the cached analysis for its
    prompt, [analysis['industry']] and [analysis['analysis']['summary']], in
    the order the f-string evaluates them. *)
Definition action_fields (analysis : json) : result (json * json) :=
  match subscript analysis "industry" with
  | Raise e => Raise e
  | Ok industry =>
      match subscript analysis "analysis" with
      | Raise e => Raise e
      | Ok inner =>
          match subscript inner "summary" with
          | Raise e => Raise e
          | Ok summary => Ok (industry, summary)
          end
      end
  end.

(** The items of a list value and a string field of a dict value. *)
Definition json_items (value : json) : list json :=
  match value with
  | JArray items => items
  | _ => []
  end.

Definition json_field (key : string) (value : json) : string :=
  match value with
  | JObject items =>
      match dict_get key items with
      | Some (JString s) => s
      | _ => ""
      end
  | _ => ""
  end.

(** The most model calls a request can make. *)
Definition calls_allowed (r : api_call) : nat :=
  match r with
  | AnalyzeEmail _ _ => 2
  | ExecuteAction _ _ _ => 1
  | _ => 0
  end.


(** A reply fenced without a language tag: [```], the document, [```],
    each on lines of their own. *)
Definition plain_fenced (document : string) : string :=
  fence ++ nl ++ document ++ nl ++ fence.

(** Strings that [str.strip] removes altogether. *)
Fixpoint all_space (s : string) : bool :=
  match s with
  | EmptyString => true
  | String c r => Str.is_space c && all_space r
  end.


(** The identifiers that the [analyze_email] requests of a sequence name. *)
Fixpoint analyzed_ids (requests : list api_call) : list string :=
  match requests with
  | [] => []
  | AnalyzeEmail request _ :: rest => AnalysisRequest.email_id request :: analyzed_ids rest
  | _ :: rest => analyzed_ids rest
  end.

(** ** A runtime to evaluate the handlers with

    [Sample.loads] reads the two documents it knows as [json.loads] does and
    rejects every other text; the two response models check each declared
    field for its declared type and keep the dict; [str] of an
    [HTTPException] is its status code and detail. *)
Module Sample.

Definition loads (text : string) : option json :=
  if String.eqb text "{}" then Some (JObject [])
  else if String.eqb text (json_dumps fallback_analysis) then Some fallback_analysis
  else None.

Definition is_str (value : json) : bool :=
  match value with JString _ => true | _ => false end.
Definition is_float (value : json) : bool :=
  match value with JNumber _ => true | _ => false end.
Definition is_dict (value : json) : bool :=
  match value with JObject _ => true | _ => false end.
Definition is_dict_of_str (value : json) : bool :=
  match value with JObject items => forallb (fun kv => is_str (snd kv)) items | _ => false end.
Definition is_list_of (check : json -> bool) (value : json) : bool :=
  match value with JArray items => forallb check items | _ => false end.

Definition field (check : json -> bool) (key : string) (items : list (string * json)) : bool :=
  match dict_get key items with
  | Some value => check value
  | None => false
  end.

Definition new_AnalysisResponse (value : json) : result json :=
  match value with
  | JObject items =>
      if field is_str "industry" items && field is_float "confidence" items
         && field is_dict_of_str "categorization" items && field is_dict "analysis" items
         && field (is_list_of is_dict) "suggested_actions" items
         && field is_str "initial_reply_draft" items
         && field (is_list_of is_str) "next_steps" items
         && field is_str "estimated_resolution" items
      then Ok value
      else Raise (ValidationError "AnalysisResponse")
  | _ => Raise (TypeError "argument after ** must be a mapping")
  end.

Definition new_ActionResponse (value : json) : result json :=
  match value with
  | JObject items =>
      if field is_dict "tool_response" items && field is_str "updated_reply_draft" items
      then Ok value
      else Raise (ValidationError "ActionResponse")
  | _ => Raise (TypeError "argument after ** must be a mapping")
  end.

Definition exn_str (e : exn) : string :=
  match e with
  | HTTPException status_code detail => pretty status_code ++ ": " ++ detail
  | JSONDecodeError _ => "Expecting value"
  | KeyError key => key
  | TypeError msg | ValidationError msg | ServiceError msg => msg
  end.

Definition format_value (value : json) : string :=
  match value with
  | JString s => s
  | _ => json_dumps value
  end.

Definition runtime : Runtime :=
  Build_Runtime json json loads new_AnalysisResponse new_ActionResponse exn_str format_value.

(** A model that is down, one that answers prose, one that answers an
    empty JSON object, and one that answers the fallback document inside a
    code fence. *)
Definition down : gemini := fun _ => Fails (ServiceError "503 unavailable").
Definition prose : gemini := fun _ => Text "Sorry, I cannot help with that.".
Definition empty_object : gemini := fun _ => Text "{}".
Definition fenced_fallback : gemini := fun _ => Text (fenced (json_dumps fallback_analysis)).

Definition parcel : EmailSubmission.t :=
  {| EmailSubmission.from_email := "ann@example.com";
     EmailSubmission.subject := "Where is my parcel";
     EmailSubmission.body := "My order has not arrived yet" |}.

Definition vpn : EmailSubmission.t :=
  {| EmailSubmission.from_email := "bob@example.com";
     EmailSubmission.subject := "VPN Connection Problem";
     EmailSubmission.body := "The vpn drops, the network is gone and my password is rejected" |}.

Definition first_draw : api_call := SubmitEmail parcel "id-1" "2024-05-01T09:30:00".

(** The world after the parcel email has been submitted, and the request
    to analyze it. *)
Definition submitted_world : world := step (H := runtime) init_world first_draw.

Definition analyze_parcel : AnalysisRequest.t := {| AnalysisRequest.email_id := "id-1" |}.


(** The world after the parcel email has been analyzed with the model
    down (the fallback analysis is cached), the world after the model
    answered the empty object (which is cached though rejected), and a
    request to run an action on the email. *)
Definition analyzed_world : world :=
  step (H := runtime) submitted_world (AnalyzeEmail analyze_parcel down).

Definition poisoned_world : world :=
  step (H := runtime) submitted_world (AnalyzeEmail analyze_parcel empty_object).

Definition acknowledge_parcel : ActionExecution.t :=
  {| ActionExecution.email_id := "id-1";
     ActionExecution.action_id := "acknowledge";
     ActionExecution.action_label := "Acknowledge Receipt" |}.

Definition parcel_record : EmailRecord.t := submitted parcel "id-1" "2024-05-01T09:30:00".

Definition acknowledge_prompt : string :=
  action_prompt "Acknowledge Receipt" "unknown" "Customer inquiry received" parcel_record.

End Sample.

(** ** Properties *)

Ltac py_unfold :=
  unfold bind, ret, raise, lift, try_except, read_emails_db, read_analysis_cache,
    store_email, store_analysis, internal_error, loads, call_gemini_api,
    generate_content, getitem in *.

Lemma bind_ext {A B} (c c' : Py A) (k k' : A -> Py B) :
  (forall w, c w = c' w) -> (forall a w, k a w = k' a w) ->
  forall w, bind c k w = bind c' k' w.
Proof.
  intros Hc Hk w. unfold bind. rewrite Hc.
  destruct (c' w) as [[a|e] w']; [apply Hk | reflexivity].
Qed.

Lemma try_except_ext {A} (body body' : Py A) (handler handler' : exn -> Py A) :
  (forall w, body w = body' w) -> (forall e w, handler e w = handler' e w) ->
  forall w, try_except body handler w = try_except body' handler' w.
Proof.
  intros Hc Hk w. unfold try_except. rewrite Hc.
  destruct (body' w) as [[a|e] w']; [reflexivity | apply Hk].
Qed.

(** ** Properties of the classifier *)

Section Classifier.

Implicit Types subject body text : string.


(** The last branch of [detect_industry] is dead: the three tests before it
    already cover every combination of scores. *)
Lemma detect_industry_cases subject body :
  detect_industry subject body =
    if (insurance_score subject body <=? banking_score subject body)
       && (it_score subject body <=? banking_score subject body)
    then "banking"
    else if it_score subject body <=? insurance_score subject body
    then "insurance" else "it_support".
Proof.
  unfold detect_industry, banking_score, insurance_score, it_score.
  set (b := keyword_score banking_keywords _).
  set (i := keyword_score insurance_keywords _).
  set (t := keyword_score it_keywords _).
  destruct (i <=? b) eqn:Hib, (t <=? b) eqn:Htb; simpl; try reflexivity;
    destruct (t <=? i) eqn:Hti; try reflexivity;
    destruct (0 <? t) eqn:H0; try reflexivity;
    apply Nat.leb_gt in Hti; apply Nat.ltb_ge in H0; lia.
Qed.

Ltac score_cases :=
  rewrite detect_industry_cases;
  repeat match goal with
         | |- context [?a <=? ?b] =>
             let E := fresh "E" in
             destruct (a <=? b) eqn:E;
             [apply Nat.leb_le in E | apply Nat.leb_gt in E]
         end;
  cbn [andb].

(** The tag returned is that of a highest score, and of the earliest list
    among those that reach it: banking before insurance before
    it_support. *)
Theorem detect_industry_argmax subject body :
  (detect_industry subject body = "banking" <->
     insurance_score subject body <= banking_score subject body /\
     it_score subject body <= banking_score subject body) /\
  (detect_industry subject body = "insurance" <->
     banking_score subject body < insurance_score subject body /\
     it_score subject body <= insurance_score subject body) /\
  (detect_industry subject body = "it_support" <->
     banking_score subject body < it_score subject body /\
     insurance_score subject body < it_score subject body).
Proof.
  score_cases; repeat split; intros; try discriminate; try lia; try reflexivity;
    destruct_and?; lia.
Qed.

(** A text with keywords of one list only gets that list's tag. *)
Theorem detect_industry_single_list subject body :
  (0 < banking_score subject body -> insurance_score subject body = 0 ->
   it_score subject body = 0 -> detect_industry subject body = "banking") /\
  (banking_score subject body = 0 -> 0 < insurance_score subject body ->
   it_score subject body = 0 -> detect_industry subject body = "insurance") /\
  (banking_score subject body = 0 -> insurance_score subject body = 0 ->
   0 < it_score subject body -> detect_industry subject body = "it_support").
Proof.
  score_cases; repeat split; intros; try reflexivity; lia.
Qed.

(** The worked example: three IT keywords, none of the other lists. *)
Theorem detect_industry_vpn_example :
  let subject := "VPN Connection Problem" in
  let body := "The vpn drops, the network is gone and my password is rejected" in
  it_score subject body = 3 /\ banking_score subject body = 0 /\
  insurance_score subject body = 0 /\ detect_industry subject body = "it_support".
Proof. vm_compute. auto. Qed.

(** C1 (where the code departs from it): a text with no keyword at all has
    three scores of zero, and [detect_industry] answers "banking" for it,
    the first test being [>=] on both sides; the residual tag is not
    returned. *)
Theorem detect_industry_no_keyword_is_banking :
  let subject := "Where is my parcel" in
  let body := "My order has not arrived yet" in
  banking_score subject body = 0 /\ insurance_score subject body = 0 /\
  it_score subject body = 0 /\ detect_industry subject body = "banking".
Proof. vm_compute. auto. Qed.

(** C3 (where the code departs from it): no subject and body make
    [detect_industry] return the residual tag; whenever all three scores
    are zero the answer is "banking" ([detect_industry_zero_scores]). *)
Theorem detect_industry_never_other subject body :
  detect_industry subject body <> "other".
Proof. score_cases; discriminate. Qed.

Lemma detect_industry_zero_scores subject body :
  banking_score subject body + insurance_score subject body + it_score subject body = 0 ->
  detect_industry subject body = "banking".
Proof. intros Hzero. score_cases; try reflexivity; lia. Qed.

End Classifier.

Create HintDb frame.

Section Frame.
Context {A B : Type}.

Lemma keeps_ret (a : A) : keeps_dicts (ret a).
Proof. intros w. split; reflexivity. Qed.

Lemma keeps_raise (e : exn) : keeps_dicts (@raise A e).
Proof. intros w. split; reflexivity. Qed.

Lemma keeps_lift (r : result A) : keeps_dicts (lift r).
Proof. intros w. split; reflexivity. Qed.

Lemma keeps_bind (c : Py A) (k : A -> Py B) :
  keeps_dicts c -> (forall a, keeps_dicts (k a)) -> keeps_dicts (bind c k).
Proof.
  intros Hc Hk w. unfold bind. specialize (Hc w).
  destruct (c w) as [[a|e] w']; simpl in *.
  - destruct (Hk a w') as [-> ->]. exact Hc.
  - exact Hc.
Qed.

Lemma keeps_try_except (body : Py A) (handler : exn -> Py A) :
  keeps_dicts body -> (forall e, keeps_dicts (handler e)) ->
  keeps_dicts (try_except body handler).
Proof.
  intros Hc Hk w. unfold try_except. specialize (Hc w).
  destruct (body w) as [[a|e] w']; simpl in *.
  - exact Hc.
  - destruct (Hk e w') as [-> ->]. exact Hc.
Qed.

End Frame.

Lemma keeps_read_emails_db : keeps_dicts read_emails_db.
Proof. intros w. split; reflexivity. Qed.

Lemma keeps_read_analysis_cache : keeps_dicts read_analysis_cache.
Proof. intros w. split; reflexivity. Qed.

Lemma keeps_getitem value key : keeps_dicts (getitem value key).
Proof.
  unfold getitem. destruct value; try apply keeps_raise.
  destruct (dict_get key items); [apply keeps_ret | apply keeps_raise].
Qed.

Lemma keeps_call_gemini_api model prompt : keeps_dicts (call_gemini_api model prompt).
Proof.
  intros w. unfold call_gemini_api, try_except, generate_content, ret.
  destruct (model prompt); split; reflexivity.
Qed.

#[local] Hint Resolve keeps_ret keeps_raise keeps_lift keeps_read_emails_db
  keeps_read_analysis_cache keeps_getitem keeps_call_gemini_api : frame.

Section HandlerFacts.
Context `{Runtime}.

Lemma keeps_loads text : keeps_dicts (loads text).
Proof. unfold loads. destruct (json_loads text); auto with frame. Qed.

Lemma call_gemini_api_run model prompt w :
  call_gemini_api model prompt w = (Ok (reply_text (model prompt)), logged [prompt] w).
Proof.
  unfold call_gemini_api, try_except, generate_content, ret, logged, reply_text.
  destruct (model prompt); reflexivity.
Qed.

Lemma analyze_email_run request model w :
  analyze_email request model w =
    let email_id := AnalysisRequest.email_id request in
    match analysis_cache w !! email_id with
    | Some value => (guarded (new_AnalysisResponse value), w)
    | None =>
        match emails_db w !! email_id with
        | None => (guarded (Raise (HTTPException 404 "Email not found")), w)
        | Some email =>
            let first := reply_text (model (analysis_prompt email)) in
            match json_loads (clean_response first) with
            | Some value =>
                (guarded (new_AnalysisResponse value),
                 cached email_id value (logged [analysis_prompt email] w))
            | None =>
                let second := reply_text (model fallback_prompt) in
                let w' := logged [analysis_prompt email; fallback_prompt] w in
                match json_loads second with
                | Some value => (guarded (new_AnalysisResponse value), cached email_id value w')
                | None => (guarded (Raise (JSONDecodeError second)), w')
                end
            end
        end
    end.
Proof.
  destruct w as [db cache sent].
  unfold analyze_email, try_except at 1, bind at 1, read_analysis_cache. simpl.
  destruct (cache !! AnalysisRequest.email_id request) as [value|] eqn:Hc.
  { unfold lift, internal_error, raise, guarded.
    destruct (new_AnalysisResponse value); reflexivity. }
  unfold bind at 1, read_emails_db. simpl.
  destruct (db !! AnalysisRequest.email_id request) as [email|] eqn:Hd.
  2:{ reflexivity. }
  unfold bind at 1. rewrite call_gemini_api_run. unfold logged. simpl.
  unfold bind at 1, try_except at 1, loads at 1.
  destruct (json_loads (clean_response _)) as [value|] eqn:Hl.
  { unfold ret, bind, store_analysis, lift, internal_error, raise, guarded, cached. simpl.
    destruct (new_AnalysisResponse value); reflexivity. }
  unfold raise at 1. unfold bind at 1. rewrite call_gemini_api_run. unfold logged. simpl.
  rewrite <- app_assoc. simpl.
  unfold loads.
  destruct (json_loads (reply_text (model fallback_prompt))) as [value|] eqn:Hl2.
  { unfold ret, bind, store_analysis, lift, internal_error, raise, guarded, cached. simpl.
    destruct (new_AnalysisResponse value); reflexivity. }
  reflexivity.
Qed.


Lemma execute_action_not_found request model now w :
  let email_id := ActionExecution.email_id request in
  (emails_db w !! email_id = None ->
   execute_action request model now w =
     (guarded (Raise (HTTPException 404 "Email not found")), w)) /\
  (is_Some (emails_db w !! email_id) -> analysis_cache w !! email_id = None ->
   execute_action request model now w =
     (guarded (Raise (HTTPException 404 "Analysis not found")), w)).
Proof.
  destruct w as [db cache sent]. simpl. split.
  - intros Hd. unfold execute_action. py_unfold. simpl. rewrite Hd. reflexivity.
  - intros [email Hd] Hc. unfold execute_action. py_unfold. simpl. rewrite Hd. simpl. rewrite Hc.
    reflexivity.
Qed.

(** [execute_action] writes neither dict, whatever it answers. *)
Lemma execute_action_frame request model now : keeps_dicts (execute_action request model now).
Proof.
  unfold execute_action.
  apply keeps_try_except; [|intros; apply keeps_raise].
  apply keeps_bind; [apply keeps_read_emails_db|]. intros db.
  destruct (db !! _) as [email|]; [|apply keeps_raise].
  apply keeps_bind; [apply keeps_read_analysis_cache|]. intros cache.
  destruct (cache !! _) as [analysis|]; [|apply keeps_raise].
  repeat (apply keeps_bind; [solve [auto with frame]|]; intro).
  apply keeps_bind; [|intros; apply keeps_lift].
  apply keeps_try_except; [apply keeps_loads|].
  intros []; auto with frame.
Qed.

End HandlerFacts.

(** ** One request at a time: what [step] does to the two dicts *)

Section Steps.
Context `{Runtime}.

Implicit Types (w : world) (r : api_call) (requests : list api_call).

Lemma step_emails_db w r :
  emails_db (step w r) =
    match r with
    | SubmitEmail email uuid4 now => <[uuid4 := submitted email uuid4 now]> (emails_db w)
    | _ => emails_db w
    end.
Proof.
  destruct r; try reflexivity.
  - simpl. rewrite analyze_email_run. simpl.
    repeat (match goal with
            | |- context [match ?x with _ => _ end] => destruct x; simpl
            end); reflexivity.
  - simpl. apply execute_action_frame.
Qed.

(** [analyze_email] writes the cache at most once, under its own
    identifier, and only when that identifier has an email record and no
    cache entry yet. *)
Lemma analyze_email_cache request model w :
  let email_id := AnalysisRequest.email_id request in
  let w' := snd (analyze_email request model w) in
  analysis_cache w' = analysis_cache w \/
  exists value,
    analysis_cache w !! email_id = None /\ is_Some (emails_db w !! email_id) /\
    analysis_cache w' = <[email_id := value]> (analysis_cache w).
Proof.
  simpl. rewrite analyze_email_run. simpl.
  destruct (analysis_cache w !! _) as [v|] eqn:Hc; [left; reflexivity|].
  destruct (emails_db w !! _) as [email|] eqn:Hd; [|left; reflexivity].
  destruct (json_loads (clean_response _)) as [v|].
  { right. exists v. eauto. }
  destruct (json_loads (reply_text _)) as [v|].
  { right. exists v. eauto. }
  left. reflexivity.
Qed.

Lemma step_analysis_cache w r :
  analysis_cache (step w r) = analysis_cache w \/
  exists request model value,
    r = AnalyzeEmail request model /\
    analysis_cache w !! AnalysisRequest.email_id request = None /\
    is_Some (emails_db w !! AnalysisRequest.email_id request) /\
    analysis_cache (step w r) =
      <[AnalysisRequest.email_id request := value]> (analysis_cache w).
Proof.
  destruct r; try (left; reflexivity).
  - destruct (analyze_email_cache request model w) as [Hc | (v & Hc & Hd & Hw)].
    + left. exact Hc.
    + right. exists request, model, v. auto.
  - left. simpl. apply execute_action_frame.
Qed.

(** A cache entry, once written, is there for good and never changes. *)
Lemma step_cache_entry w r email_id value :
  analysis_cache w !! email_id = Some value ->
  analysis_cache (step w r) !! email_id = Some value.
Proof.
  intros Hv.
  destruct (step_analysis_cache w r) as [-> | (rq & m & v & _ & Hnone & _ & ->)]; [exact Hv|].
  rewrite lookup_insert_ne; [exact Hv|]. intros <-. congruence.
Qed.

Lemma run_cache_entry requests w email_id value :
  analysis_cache w !! email_id = Some value ->
  analysis_cache (run w requests) !! email_id = Some value.
Proof.
  revert w. induction requests as [|r requests IH]; intros w Hv; [exact Hv|].
  simpl. apply IH, step_cache_entry, Hv.
Qed.

Lemma step_cache_backed w r : cache_backed w -> cache_backed (step w r).
Proof.
  intros Hw k Hk.
  assert (Hdb : is_Some (emails_db w !! k) -> is_Some (emails_db (step w r) !! k)).
  { rewrite step_emails_db. destruct r; auto.
    intros Hs. destruct (decide (uuid4 = k)) as [->|Hne].
    - rewrite lookup_insert_eq. eauto.
    - rewrite lookup_insert_ne; auto. }
  apply Hdb.
  destruct (step_analysis_cache w r) as [Heq | (rq & m & v & _ & _ & Hd & Heq)];
    rewrite Heq in Hk.
  - apply Hw, Hk.
  - destruct (decide (AnalysisRequest.email_id rq = k)) as [<-|Hne]; [exact Hd|].
    rewrite lookup_insert_ne in Hk; auto.
Qed.

Lemma run_cache_backed requests w : cache_backed w -> cache_backed (run w requests).
Proof.
  revert w. induction requests as [|r requests IH]; intros w Hw; [exact Hw|].
  simpl. apply IH, step_cache_backed, Hw.
Qed.


(** Submissions given pairwise distinct identifiers never overwrite one
    another: the store holds one record per submission. *)
Lemma run_emails_db_size requests w :
  NoDup (uuids_drawn requests) ->
  (forall uuid4, uuid4 ∈ uuids_drawn requests -> emails_db w !! uuid4 = None) ->
  size (emails_db (run w requests)) = size (emails_db w) + length (uuids_drawn requests).
Proof.
  revert w. induction requests as [|r requests IH]; intros w Hnodup Hfresh; [simpl; lia|].
  change (run w (r :: requests)) with (run (step w r) requests).
  destruct r; cbn [uuids_drawn] in *;
    try (rewrite IH;
         [ rewrite step_emails_db; reflexivity
         | exact Hnodup
         | intros u Hu; rewrite step_emails_db; apply Hfresh, Hu ]).
  apply NoDup_cons in Hnodup as [Hnotin Hnodup].
  rewrite IH; [| exact Hnodup |].
  - rewrite step_emails_db, map_size_insert_None; [simpl; lia|]. apply Hfresh. left.
  - intros u Hu. rewrite step_emails_db, lookup_insert_ne.
    + apply Hfresh. right. exact Hu.
    + intros ->. contradiction.
Qed.

Theorem no_submission_overwrites requests :
  NoDup (uuids_drawn requests) ->
  size (emails_db (run init_world requests)) = length (uuids_drawn requests).
Proof.
  intros Hnodup. rewrite run_emails_db_size; auto.
Qed.

End Steps.

(** ** The endpoints' contracts *)

Section Endpoints.
Context `{Runtime}.

Implicit Types (w : world) (r : api_call) (requests : list api_call).

(** C2 (what the code does instead): with no cache entry for the
    identifier, [execute_action] answers status 500, and so does
    [analyze_email] when the email store has no record of it either.  The
    handlers do raise [HTTPException 404], but inside their own
    [try ... except Exception], which turns it into a 500 whose detail is
    the text of the 404. *)
Theorem not_found_is_answered_500 w email_id action_id action_label model now :
  analysis_cache w !! email_id = None ->
  status_of (respond (fst (execute_action
    {| ActionExecution.email_id := email_id;
       ActionExecution.action_id := action_id;
       ActionExecution.action_label := action_label |} model now w))) = 500 /\
  (emails_db w !! email_id = None ->
   respond (fst (analyze_email {| AnalysisRequest.email_id := email_id |} model w)) =
     HttpError 500 (exn_str (HTTPException 404 "Email not found"))).
Proof.
  intros Hc. split.
  - set (rq := {| ActionExecution.email_id := email_id |}).
    destruct (execute_action_not_found rq model now w) as [Hmissing Hunanalysed].
    destruct (emails_db w !! email_id) as [email|] eqn:Hd.
    + rewrite Hunanalysed; simpl; eauto.
    + rewrite Hmissing; simpl; auto.
  - intros Hd. rewrite analyze_email_run. simpl. rewrite Hc, Hd. reflexivity.
Qed.

(** C7: [call_gemini_api] always returns: the model's text when the model
    answers, the JSON text of the fixed fallback analysis when the call
    raises.  A failing model is therefore invisible to the handlers: each
    behaves as it would had the model answered with the fallback text. *)
Theorem call_gemini_api_never_raises model prompt w :
  call_gemini_api model prompt w =
    (Ok (match model prompt with
         | Text text => text
         | Fails _ => json_dumps fallback_analysis
         end),
     logged [prompt] w) /\
  (forall request, analyze_email request model w =
                   analyze_email request (never_failing model) w) /\
  (forall request now, execute_action request model now w =
                       execute_action request (never_failing model) now w).
Proof.
  split; [apply call_gemini_api_run|]. split.
  - intros request. rewrite !analyze_email_run. reflexivity.
  - intros request now. unfold execute_action.
    apply try_except_ext; [|reflexivity]. clear w. intros w.
    apply bind_ext; [reflexivity|]. clear w. intros db w.
    destruct (db !! _) as [email|]; [|reflexivity].
    apply bind_ext; [reflexivity|]. clear w. intros cache w.
    destruct (cache !! _) as [analysis|]; [|reflexivity].
    do 4 (apply bind_ext; [reflexivity|]; clear w; intros ? w).
    apply bind_ext; [|reflexivity]. clear w. intros w.
    rewrite !call_gemini_api_run. reflexivity.
Qed.

(** C8: when the cleaned text of the first reply does not parse,
    [analyze_email] calls the model exactly once more, with the generic
    prompt, and parses that reply as it comes.  If it parses, it is the
    analysis result (cached, then validated); if not, the decode error
    reaches the outer handler, the client gets status 500 and the cache is
    left as it was. *)
Theorem parse_failure_retries_once w request model email :
  let email_id := AnalysisRequest.email_id request in
  let first := reply_text (model (analysis_prompt email)) in
  let second := reply_text (model fallback_prompt) in
  let out := analyze_email request model w in
  analysis_cache w !! email_id = None ->
  emails_db w !! email_id = Some email ->
  json_loads (clean_response first) = None ->
  prompts_sent (snd out) = (prompts_sent w ++ [analysis_prompt email; fallback_prompt])%list /\
  match json_loads second with
  | Some value =>
      fst out = guarded (new_AnalysisResponse value) /\
      analysis_cache (snd out) = <[email_id := value]> (analysis_cache w)
  | None =>
      respond (fst out) = HttpError 500 (exn_str (JSONDecodeError second)) /\
      analysis_cache (snd out) = analysis_cache w
  end.
Proof.
  intros email_id first second out Hc Hd Hfirst. subst out.
  rewrite analyze_email_run. simpl. fold email_id. rewrite Hc, Hd. fold first. rewrite Hfirst.
  fold second. destruct (json_loads second) as [value|]; simpl; auto.
Qed.

(** C5: once [analyze_email] has answered an identifier successfully, the
    cache holds the analysis under that identifier, keeps it unchanged
    through every later sequence of requests, and every later
    [analyze_email] for the identifier returns the very same response,
    whatever the model would say now, without calling the model or
    writing anything. *)
Theorem analysis_is_cached_for_good w request model response w1 :
  analyze_email request model w = (Ok response, w1) ->
  exists value,
    analysis_cache w1 !! AnalysisRequest.email_id request = Some value /\
    new_AnalysisResponse value = Ok response /\
    forall requests model',
      let w2 := run w1 requests in
      analysis_cache w2 !! AnalysisRequest.email_id request = Some value /\
      analyze_email request model' w2 = (Ok response, w2).
Proof.
  intros Hfirst.
  assert (Hstored : exists value,
             analysis_cache w1 !! AnalysisRequest.email_id request = Some value /\
             new_AnalysisResponse value = Ok response).
  { rewrite analyze_email_run in Hfirst. simpl in Hfirst.
    destruct (analysis_cache w !! _) as [value|] eqn:Hc.
    { exists value. destruct (new_AnalysisResponse value) eqn:Hv; simpl in Hfirst;
        inversion Hfirst; subst; auto. }
    destruct (emails_db w !! _) as [email|]; [|discriminate].
    destruct (json_loads (clean_response _)) as [value|].
    { exists value. destruct (new_AnalysisResponse value) eqn:Hv; simpl in Hfirst;
        inversion Hfirst; subst; simpl; rewrite lookup_insert_eq; auto. }
    destruct (json_loads (reply_text _)) as [value|]; [|discriminate].
    exists value. destruct (new_AnalysisResponse value) eqn:Hv; simpl in Hfirst;
      inversion Hfirst; subst; simpl; rewrite lookup_insert_eq; auto. }
  destruct Hstored as (value & Hvalue & Hvalid).
  exists value. repeat split; auto.
  - apply run_cache_entry, Hvalue.
  - rewrite analyze_email_run. simpl.
    rewrite (run_cache_entry requests w1 _ value Hvalue), Hvalid. reflexivity.
Qed.


(** C9: after any sequence of requests served from the empty initial
    state, every key of the analysis cache is a key of the email store. *)
Theorem cache_keys_have_emails requests :
  dom (analysis_cache (run init_world requests)) ⊆ dom (emails_db (run init_world requests)).
Proof.
  intros k Hk. apply elem_of_dom. apply elem_of_dom in Hk.
  revert k Hk. apply run_cache_backed.
  intros k [v Hv]. simpl in Hv. rewrite lookup_empty in Hv. discriminate.
Qed.

(** C10 (amended): [submit_email], given an identifier with no record yet,
    adds exactly one entry to the email store and leaves every other
    entry and the cache alone; [analyze_email] never writes the email
    store and adds at most one cache entry, under an identifier that had
    none, leaving the other entries alone; it writes nothing when the
    identifier has no email record.  [execute_action] and the four
    read-only endpoints write nothing.  So no request changes or
    removes an entry of either dict. *)
Theorem step_frame w r :
  fresh_identifier w r ->
  emails_db w ⊆ emails_db (step w r) /\
  analysis_cache w ⊆ analysis_cache (step w r) /\
  match r with
  | SubmitEmail email uuid4 now =>
      emails_db (step w r) = <[uuid4 := submitted email uuid4 now]> (emails_db w) /\
      size (emails_db (step w r)) = S (size (emails_db w)) /\
      analysis_cache (step w r) = analysis_cache w
  | AnalyzeEmail request model =>
      emails_db (step w r) = emails_db w /\
      size (analysis_cache (step w r)) <= S (size (analysis_cache w)) /\
      (emails_db w !! AnalysisRequest.email_id request = None ->
       analysis_cache (step w r) = analysis_cache w)
  | _ =>
      emails_db (step w r) = emails_db w /\
      analysis_cache (step w r) = analysis_cache w
  end.
Proof.
  intros Hfresh.
  assert (Hcache : analysis_cache w ⊆ analysis_cache (step w r) /\
                   size (analysis_cache (step w r)) <= S (size (analysis_cache w))).
  { destruct (step_analysis_cache w r) as [-> | (rq & m & v & _ & Hnone & _ & ->)].
    - split; [reflexivity | lia].
    - split; [apply insert_subseteq, Hnone|].
      rewrite map_size_insert_None by exact Hnone. lia. }
  destruct Hcache as [Hsub Hsize].
  assert (Hdb : emails_db w ⊆ emails_db (step w r)).
  { rewrite step_emails_db. destruct r; try reflexivity.
    apply insert_subseteq, Hfresh. }
  split; [exact Hdb|]. split; [exact Hsub|].
  destruct r; try (split; reflexivity).
  - rewrite step_emails_db. split; [reflexivity|]. split; [|reflexivity].
    apply map_size_insert_None, Hfresh.
  - split; [apply step_emails_db|]. split; [exact Hsize|].
    intros Hd.
    destruct (step_analysis_cache w (AnalyzeEmail request model))
      as [Heq | (rq & m & v & Hr & _ & [email Hsome] & _)]; [exact Heq|].
    inversion Hr; subst. congruence.
  - split; apply execute_action_frame.
Qed.

End Endpoints.

(** ** The response clean-up on fenced JSON *)

Section Sanitizer.

Implicit Types (s document : string) (st : lex_state).

Lemma rstrip_fence s : Str.rstrip (s ++ fence) = s ++ fence.
Proof.
  induction s as [|c s IH]; [reflexivity|].
  simpl. rewrite IH. destruct s; reflexivity.
Qed.

Lemma json_lexical_step st c r :
  json_lexical_from st (String c r) = true ->
  exists st', json_lexical_from st' r = true.
Proof.
  simpl. destruct st.
  - destruct (_ =? 34); [eauto|]. intros [_ ?]%andb_prop. eauto.
  - destruct (_ =? 34); [eauto|]. destruct (_ =? 92); [eauto|].
    intros [_ ?]%andb_prop. eauto.
  - intros [_ ?]%andb_prop. eauto.
Qed.

(** Outside a string literal a document does not go on with a backquote. *)
Lemma json_lexical_no_fence r :
  json_lexical_from Outside r = true -> Str.startswith fence (r ++ nl ++ fence) = false.
Proof.
  destruct r as [|d r]; [reflexivity|]. intros Hlex.
  change (Str.startswith fence (String d (r ++ nl ++ fence)) = false).
  unfold fence at 1. cbn [Str.startswith].
  destruct (Ascii.eqb_spec "`"%char d) as [<-|]; [|reflexivity].
  simpl in Hlex. discriminate.
Qed.

(** The closing fence is the only place where a line of the document
    starts with a fence. *)
Lemma replace_closing_fence st document :
  json_lexical_from st document = true ->
  Str.replace_from (nl ++ fence) "" 0 (document ++ nl ++ fence) = document.
Proof.
  revert st. induction document as [|c r IH]; intros st Hlex; [reflexivity|].
  destruct (json_lexical_step _ _ _ Hlex) as [st' Hr].
  change (Str.replace_from (nl ++ fence) "" 0 (String c (r ++ nl ++ fence)) = String c r).
  cbn [Str.replace_from].
  assert (Hno : Str.startswith (nl ++ fence) (String c (r ++ nl ++ fence)) = false).
  { change (nl ++ fence) with (String "010"%char fence).
    cbn [Str.startswith].
    destruct (Ascii.eqb_spec "010"%char c) as [<-|]; [|reflexivity].
    destruct st; simpl in Hlex; try discriminate.
    apply json_lexical_no_fence, Hlex. }
  rewrite Hno. f_equal. apply (IH st'), Hr.
Qed.

(** One character of a pattern against a document still being read inside
    a string literal. *)
Ltac next_in_string Hlex r :=
  destruct r as [|?d r];
  [ simpl in Hlex; discriminate
  | match goal with
    | |- Str.startswith (String ?a ?p) _ = false =>
        change (Str.startswith (String a p) (String d (r ++ nl ++ fence)) = false);
        cbn [Str.startswith];
        destruct (Ascii.eqb_spec a d) as [<-|]; [simpl in Hlex | reflexivity]
    end ].

(** A string literal cannot hold the rest of an opening fence line: the
    line feed that ends it is a raw control character. *)
Lemma json_lexical_no_fence_json r :
  json_lexical_from InString r = true ->
  Str.startswith ("``json" ++ nl) (r ++ nl ++ fence) = false.
Proof.
  intros Hlex. change ("``json" ++ nl) with (String "`"%char ("`json" ++ nl)).
  next_in_string Hlex r. change ("`json" ++ nl) with (String "`"%char ("json" ++ nl)).
  next_in_string Hlex r. change ("json" ++ nl) with (String "j"%char ("son" ++ nl)).
  next_in_string Hlex r. change ("son" ++ nl) with (String "s"%char ("on" ++ nl)).
  next_in_string Hlex r. change ("on" ++ nl) with (String "o"%char ("n" ++ nl)).
  next_in_string Hlex r. change ("n" ++ nl) with (String "n"%char nl).
  next_in_string Hlex r. change nl with (String "010"%char "").
  next_in_string Hlex r. discriminate.
Qed.

(** The opening fence line occurs nowhere in the document and its closing
    fence. *)
Lemma replace_opening_fence st document :
  json_lexical_from st document = true ->
  Str.replace_from (fence_json ++ nl) "" 0 (document ++ nl ++ fence) =
    document ++ nl ++ fence.
Proof.
  revert st. induction document as [|c r IH]; intros st Hlex; [reflexivity|].
  destruct (json_lexical_step _ _ _ Hlex) as [st' Hr].
  change (Str.replace_from (fence_json ++ nl) "" 0 (String c (r ++ nl ++ fence)) =
          String c (r ++ nl ++ fence)).
  cbn [Str.replace_from].
  assert (Hno : Str.startswith (fence_json ++ nl) (String c (r ++ nl ++ fence)) = false).
  { change (fence_json ++ nl) with (String "`"%char ("``json" ++ nl)).
    cbn [Str.startswith].
    destruct (Ascii.eqb_spec "`"%char c) as [<-|]; [|reflexivity].
    destruct st; simpl in Hlex; try discriminate.
    apply json_lexical_no_fence_json, Hlex. }
  rewrite Hno. f_equal. apply (IH st'), Hr.
Qed.

Lemma rstrip_keeps_tail s t :
  Str.rstrip t = t -> t <> "" -> Str.rstrip (s ++ t) = s ++ t.
Proof.
  intros Ht Hne. induction s as [|c s IH]; [exact Ht|].
  change (Str.rstrip (String c (s ++ t)) = String c (s ++ t)).
  cbn [Str.rstrip]. rewrite IH. destruct s; [destruct t; [contradiction|]|]; reflexivity.
Qed.

Lemma strip_fenced document : Str.strip (fenced document) = fenced document.
Proof.
  unfold Str.strip. change (Str.lstrip (fenced document)) with (fenced document).
  unfold fenced.
  assert (Hinner : Str.rstrip (document ++ nl ++ fence) = document ++ nl ++ fence).
  { apply rstrip_keeps_tail; [reflexivity | discriminate]. }
  apply rstrip_keeps_tail; [|discriminate].
  apply rstrip_keeps_tail; [exact Hinner|].
  destruct document; discriminate.
Qed.

Lemma lstrip_lexical s :
  json_lexical_from Outside s = true -> json_lexical_from Outside (Str.lstrip s) = true.
Proof.
  induction s as [|c s IH]; [reflexivity|]. intros Hlex.
  cbn [Str.lstrip]. destruct (Str.is_space c) eqn:Hsp; [|exact Hlex].
  apply IH. simpl in Hlex. destruct (nat_of_ascii c =? 34) eqn:Hq.
  - apply Nat.eqb_eq in Hq. unfold Str.is_space in Hsp. rewrite Hq in Hsp. discriminate.
  - apply andb_prop in Hlex. apply Hlex.
Qed.

Lemma lexical_not_fenced s :
  json_lexical_from Outside s = true -> Str.startswith fence (Str.rstrip s) = false.
Proof.
  destruct s as [|c s]; [reflexivity|]. intros Hlex.
  assert (Hc : Ascii.eqb "`"%char c = false).
  { destruct (Ascii.eqb_spec "`"%char c) as [<-|]; [|reflexivity].
    simpl in Hlex. discriminate. }
  cbn [Str.rstrip]. destruct (Str.rstrip s), (Str.is_space c);
    unfold fence; cbn [Str.startswith]; try rewrite Hc; reflexivity.
Qed.

Lemma not_fence_not_fence_json s :
  Str.startswith fence s = false -> Str.startswith fence_json s = false.
Proof.
  unfold fence, fence_json.
  destruct s as [|a s]; [auto|]. cbn [Str.startswith].
  destruct (Ascii.eqb _ a); [|auto].
  destruct s as [|b s]; [auto|]. destruct (Ascii.eqb _ b); [|auto].
  destruct s as [|c s]; [auto|]. destruct (Ascii.eqb _ c); [discriminate|auto].
Qed.

(** The clean-up leaves alone any text that does not start with a fence
    once its surrounding white space is gone. *)
Lemma clean_response_unfenced response :
  Str.startswith fence (Str.strip response) = false ->
  clean_response response = Str.strip response.
Proof.
  intros Hno. unfold clean_response.
  rewrite (not_fence_not_fence_json _ Hno), Hno. reflexivity.
Qed.

(** When the reply starts with a fence, [str.replace] takes out every
    fence line, those inside the text as well as the first and last. *)
Theorem clean_response_inner_fences :
  clean_response (fenced "{}" ++ nl ++ "and" ++ nl ++ fenced "[]") =
    "{}" ++ nl ++ "and" ++ nl ++ "[]".
Proof. vm_compute. reflexivity. Qed.

(** C4 (amended): a JSON document that the model puts between a [```json]
    line and a closing [```] line, each line ended by a line feed, comes
    out of the clean-up exactly as it went into the fence, so [json.loads]
    reads from the fenced reply what it reads from the bare document; and
    a bare JSON document, which has no fence to strip, loses nothing but
    the white space around it. *)
Theorem clean_response_fenced_json `{Runtime} document :
  json_lexical document = true ->
  clean_response (fenced document) = document /\
  json_loads (clean_response (fenced document)) = json_loads document /\
  clean_response document = Str.strip document.
Proof.
  intros Hlex.
  assert (Hfenced : clean_response (fenced document) = document).
  { unfold clean_response. rewrite strip_fenced.
    change (Str.startswith fence_json (fenced document)) with true. cbv iota.
    change (Str.replace (fence_json ++ nl) "" (fenced document))
      with (Str.replace_from (fence_json ++ nl) "" 0 (document ++ nl ++ fence)).
    rewrite (replace_opening_fence Outside) by exact Hlex.
    change (Str.replace (nl ++ fence) "" (document ++ nl ++ fence))
      with (Str.replace_from (nl ++ fence) "" 0 (document ++ nl ++ fence)).
    rewrite (replace_closing_fence Outside) by exact Hlex.
    assert (Hno : Str.startswith fence document = false).
    { destruct document as [|c r]; [reflexivity|].
      unfold fence. cbn [Str.startswith].
      destruct (Ascii.eqb_spec "`"%char c) as [<-|]; [|reflexivity].
      unfold json_lexical in Hlex. simpl in Hlex. discriminate. }
    rewrite Hno. reflexivity. }
  split; [exact Hfenced|]. split; [rewrite Hfenced; reflexivity|].
  apply clean_response_unfenced. unfold Str.strip.
  apply lexical_not_fenced, lstrip_lexical, Hlex.
Qed.

End Sanitizer.


(** ** More on the handlers *)

Section MoreHandlers.
Context `{Runtime}.

Implicit Types (w : world) (r : api_call) (requests : list api_call).

Lemma getitem_subscript value key w :
  getitem value key w = (subscript value key, w).
Proof.
  unfold getitem, subscript. destruct value; try reflexivity.
  destruct (dict_get key items); reflexivity.
Qed.

Lemma execute_action_run request model now w :
  execute_action request model now w =
    let email_id := ActionExecution.email_id request in
    let action_label := ActionExecution.action_label request in
    match emails_db w !! email_id with
    | None => (guarded (Raise (HTTPException 404 "Email not found")), w)
    | Some email =>
        match analysis_cache w !! email_id with
        | None => (guarded (Raise (HTTPException 404 "Analysis not found")), w)
        | Some analysis =>
            match action_fields analysis with
            | Raise e => (guarded (Raise e), w)
            | Ok (industry, summary) =>
                let prompt :=
                  action_prompt action_label (format_value industry)
                                (format_value summary) email in
                let action_result :=
                  match json_loads (clean_response (reply_text (model prompt))) with
                  | Some value => value
                  | None => fallback_action action_label now
                  end in
                (guarded (new_ActionResponse action_result), logged [prompt] w)
            end
        end
    end.
Proof.
  destruct w as [db cache sent].
  unfold execute_action, try_except at 1, bind at 1, read_emails_db. simpl.
  destruct (db !! _) as [email|]; [|reflexivity].
  unfold bind at 1, read_analysis_cache. simpl.
  destruct (cache !! _) as [analysis|]; [|reflexivity].
  unfold action_fields.
  unfold bind at 1. rewrite getitem_subscript.
  destruct (subscript analysis "industry") as [industry|e] eqn:Hi; [|reflexivity].
  unfold bind at 1. rewrite getitem_subscript.
  destruct (subscript analysis "analysis") as [inner|e]; [|reflexivity].
  unfold bind at 1. rewrite getitem_subscript.
  destruct (subscript inner "summary") as [summary|e]; [|reflexivity].
  unfold bind at 1. rewrite getitem_subscript, Hi.
  unfold bind at 1. rewrite call_gemini_api_run. unfold logged. simpl.
  unfold bind, try_except, loads, lift, ret, raise, internal_error, guarded.
  destruct (json_loads (clean_response _)) as [value|];
    destruct (new_ActionResponse _); reflexivity.
Qed.

(** When the model's reply for an action does not parse, the handler
    does not fail: it answers with its own fallback action, which names
    the button's label and the time, after one call to the model and
    without touching either dict. *)
Theorem execute_action_fallback w request model now email analysis industry summary :
  let email_id := ActionExecution.email_id request in
  let action_label := ActionExecution.action_label request in
  let prompt :=
    action_prompt action_label (format_value industry) (format_value summary) email in
  emails_db w !! email_id = Some email ->
  analysis_cache w !! email_id = Some analysis ->
  action_fields analysis = Ok (industry, summary) ->
  json_loads (clean_response (reply_text (model prompt))) = None ->
  execute_action request model now w =
    (guarded (new_ActionResponse (fallback_action action_label now)), logged [prompt] w).
Proof.
  intros email_id action_label prompt Hd Hc Hf Hl.
  rewrite execute_action_run. simpl. fold email_id. rewrite Hd, Hc, Hf.
  fold action_label. fold prompt. rewrite Hl. reflexivity.
Qed.

(** A cached analysis that is not a dict with an ["industry"] entry and an
    ["analysis"] dict with a ["summary"] entry makes [execute_action]
    answer 500 with the text of the [KeyError] or [TypeError], before any
    call to the model. *)
Theorem execute_action_unreadable_analysis w request model now email analysis e :
  emails_db w !! ActionExecution.email_id request = Some email ->
  analysis_cache w !! ActionExecution.email_id request = Some analysis ->
  action_fields analysis = Raise e ->
  execute_action request model now w = (Raise (HTTPException 500 (exn_str e)), w).
Proof.
  intros Hd Hc Hf. rewrite execute_action_run. simpl. rewrite Hd, Hc, Hf. reflexivity.
Qed.

(** When the call to the model fails during [execute_action], the text
    handed back is the fallback analysis, not an action: it parses, the
    handler's own fallback action is not used, and where the action
    response model rejects an analysis dict the client is answered 500. *)
Theorem execute_action_model_down w request model now email analysis industry summary err e :
  let email_id := ActionExecution.email_id request in
  let prompt :=
    action_prompt (ActionExecution.action_label request) (format_value industry)
                  (format_value summary) email in
  emails_db w !! email_id = Some email ->
  analysis_cache w !! email_id = Some analysis ->
  action_fields analysis = Ok (industry, summary) ->
  model prompt = Fails err ->
  json_loads (json_dumps fallback_analysis) = Some fallback_analysis ->
  new_ActionResponse fallback_analysis = Raise e ->
  execute_action request model now w =
    (Raise (HTTPException 500 (exn_str e)), logged [prompt] w).
Proof.
  intros email_id prompt Hd Hc Hf Hm Hl He.
  rewrite execute_action_run. simpl. fold email_id. rewrite Hd, Hc, Hf.
  fold prompt. rewrite Hm. cbn [reply_text].
  change (clean_response (json_dumps fallback_analysis))
    with (json_dumps fallback_analysis).
  rewrite Hl, He. reflexivity.
Qed.

(** A request only adds to the record of prompts, and adds at most two
    for [analyze_email], one for [execute_action] and none for the other
    endpoints. *)
Theorem step_model_calls w r :
  exists prompts,
    prompts_sent (step w r) = (prompts_sent w ++ prompts)%list /\
    length prompts <= calls_allowed r.
Proof.
  destruct r; try (exists []; split; [symmetry; apply app_nil_r | simpl; lia]).
  - cbn [step calls_allowed]. rewrite analyze_email_run. simpl.
    destruct (analysis_cache w !! _);
      [exists []; split; [symmetry; apply app_nil_r | simpl; lia]|].
    destruct (emails_db w !! _) as [email|];
      [|exists []; split; [symmetry; apply app_nil_r | simpl; lia]].
    destruct (json_loads (clean_response _)).
    { exists [analysis_prompt email]. split; [reflexivity | simpl; lia]. }
    exists [analysis_prompt email; fallback_prompt].
    destruct (json_loads (reply_text _)); split; try reflexivity; simpl; lia.
  - cbn [step calls_allowed]. rewrite execute_action_run. simpl.
    destruct (emails_db w !! _) as [email|];
      [|exists []; split; [symmetry; apply app_nil_r | simpl; lia]].
    destruct (analysis_cache w !! _) as [analysis|];
      [|exists []; split; [symmetry; apply app_nil_r | simpl; lia]].
    destruct (action_fields analysis) as [[industry summary]|e];
      [|exists []; split; [symmetry; apply app_nil_r | simpl; lia]].
    eexists [_]. split; [reflexivity | simpl; lia].
Qed.

(** An analysis that parses but is rejected by the response model is
    cached all the same: the call that wrote it answers 500, and so does
    every later [analyze_email] for that identifier, with the same detail,
    whatever the model would say now and without asking it. *)
Theorem rejected_analysis_is_cached_for_good w request model email value e :
  let email_id := AnalysisRequest.email_id request in
  let out := analyze_email request model w in
  analysis_cache w !! email_id = None ->
  emails_db w !! email_id = Some email ->
  json_loads (clean_response (reply_text (model (analysis_prompt email)))) = Some value ->
  new_AnalysisResponse value = Raise e ->
  fst out = Raise (HTTPException 500 (exn_str e)) /\
  forall requests model',
    let w2 := run (snd out) requests in
    analyze_email request model' w2 = (Raise (HTTPException 500 (exn_str e)), w2).
Proof.
  intros email_id out Hc Hd Hl He. subst out.
  rewrite analyze_email_run. simpl. fold email_id. rewrite Hc, Hd, Hl, He.
  split; [reflexivity|]. intros requests model'. simpl.
  rewrite analyze_email_run. simpl. fold email_id.
  erewrite run_cache_entry; [rewrite He; reflexivity|].
  simpl. apply lookup_insert_eq.
Qed.

(** Every record in the email store is filed under its own identifier and
    is exactly what [submit_email] built: its industry is what
    [detect_industry] says of its subject and body, its sentiment is
    "neutral" and its status "new"; no request updates a record. *)
Theorem stored_records_are_as_submitted requests email_id email_record :
  emails_db (run init_world requests) !! email_id = Some email_record ->
  EmailRecord.id email_record = email_id /\
  EmailRecord.industry email_record =
    detect_industry (EmailRecord.subject email_record) (EmailRecord.body email_record) /\
  EmailRecord.sentiment email_record = "neutral" /\
  EmailRecord.status email_record = "new".
Proof.
  assert (Hinv : forall requests w,
             (forall k rec, emails_db w !! k = Some rec ->
                            exists email now, rec = submitted email k now) ->
             forall k rec, emails_db (run w requests) !! k = Some rec ->
                           exists email now, rec = submitted email k now).
  { clear. intros requests. induction requests as [|r requests IH]; intros w Hw; [exact Hw|].
    change (run w (r :: requests)) with (run (step w r) requests). apply IH.
    intros k rec. rewrite step_emails_db. destruct r; auto.
    destruct (decide (uuid4 = k)) as [->|Hne].
    - rewrite lookup_insert_eq. intros [= <-]. eauto.
    - rewrite lookup_insert_ne by exact Hne. auto. }
  intros Hrec. apply Hinv in Hrec as (email & now & ->); [repeat split|].
  intros k rec. simpl. rewrite lookup_empty. discriminate.
Qed.

(** A stored record stays in the store, unchanged, through every later
    sequence of requests in which [uuid4] does not hand out its identifier
    again. *)
Theorem stored_record_persists requests w email_id email_record :
  emails_db w !! email_id = Some email_record ->
  email_id ∉ uuids_drawn requests ->
  emails_db (run w requests) !! email_id = Some email_record.
Proof.
  revert w. induction requests as [|r requests IH]; intros w Hrec Hnotin; [exact Hrec|].
  change (run w (r :: requests)) with (run (step w r) requests).
  assert (Hrest : email_id ∉ uuids_drawn requests).
  { intros Hin. apply Hnotin. destruct r; simpl; auto. right. exact Hin. }
  apply IH; [|exact Hrest].
  rewrite step_emails_db. destruct r; auto.
  rewrite lookup_insert_ne; [exact Hrec|].
  intros ->. apply Hnotin. left.
Qed.

(** A cache entry is only ever written by an [analyze_email] request for
    its identifier: an identifier no such request has named has none. *)
Theorem cache_entries_come_from_analyze requests email_id :
  is_Some (analysis_cache (run init_world requests) !! email_id) ->
  email_id ∈ analyzed_ids requests.
Proof.
  assert (Hgen : forall requests w,
             is_Some (analysis_cache (run w requests) !! email_id) ->
             is_Some (analysis_cache w !! email_id) \/ email_id ∈ analyzed_ids requests).
  { clear. intros requests. induction requests as [|r requests IH]; intros w Hk; [auto|].
    change (run w (r :: requests)) with (run (step w r) requests) in Hk.
    apply IH in Hk as [Hk|Hk].
    - destruct (step_analysis_cache w r) as [Heq | (rq & m & v & -> & _ & _ & Heq)];
        rewrite Heq in Hk; [auto|].
      destruct (decide (AnalysisRequest.email_id rq = email_id)) as [ <- | Hne ].
      + right. left.
      + rewrite lookup_insert_ne in Hk by exact Hne. auto.
    - right. destruct r; simpl; auto. right. exact Hk. }
  intros Hk. apply Hgen in Hk as [[v Hv]|Hk]; [|exact Hk].
  simpl in Hv. rewrite lookup_empty in Hv. discriminate.
Qed.

(** An outage is cached like an answer: when the call to the model fails
    during the first analysis of an email, the fallback analysis is what
    is parsed, stored under the identifier and returned, after a single
    call, and it stays in the cache through every later request. *)
Theorem model_outage_is_cached_for_good w request model email err :
  let email_id := AnalysisRequest.email_id request in
  let out := analyze_email request model w in
  analysis_cache w !! email_id = None ->
  emails_db w !! email_id = Some email ->
  model (analysis_prompt email) = Fails err ->
  json_loads (json_dumps fallback_analysis) = Some fallback_analysis ->
  out = (guarded (new_AnalysisResponse fallback_analysis),
         cached email_id fallback_analysis (logged [analysis_prompt email] w)) /\
  forall requests,
    analysis_cache (run (snd out) requests) !! email_id = Some fallback_analysis.
Proof.
  intros email_id out Hc Hd Hm Hl. subst out.
  rewrite analyze_email_run. simpl. fold email_id. rewrite Hc, Hd, Hm. cbn [reply_text].
  change (clean_response (json_dumps fallback_analysis))
    with (json_dumps fallback_analysis).
  rewrite Hl. split; [reflexivity|].
  intros requests. apply run_cache_entry. simpl. apply lookup_insert_eq.
Qed.

End MoreHandlers.


(** ** More on the classifier and the sample listings *)

Section MoreClassifier.

Implicit Types subject body text : string.

Lemma lower_char_idempotent c : Str.lower_char (Str.lower_char c) = Str.lower_char c.
Proof. destruct c as [[] [] [] [] [] [] [] []]; reflexivity. Qed.

Lemma lower_idempotent s : Str.lower (Str.lower s) = Str.lower s.
Proof.
  induction s as [|c s IH]; [reflexivity|].
  cbn [Str.lower]. rewrite lower_char_idempotent, IH. reflexivity.
Qed.

Lemma str_app_assoc s t u : (s ++ t) ++ u = s ++ t ++ u.
Proof.
  induction s as [|c s IH]; [reflexivity|].
  change (String c ((s ++ t) ++ u) = String c (s ++ t ++ u)). rewrite IH. reflexivity.
Qed.

Lemma lower_app s t : Str.lower (s ++ t) = Str.lower s ++ Str.lower t.
Proof.
  induction s as [|c s IH]; [reflexivity|].
  change (Str.lower (String c (s ++ t)) = String (Str.lower_char c) (Str.lower s ++ Str.lower t)).
  cbn [Str.lower]. rewrite IH. reflexivity.
Qed.

(** The classifier does not see letter case: lower-casing the subject and
    the body beforehand changes nothing. *)
Theorem detect_industry_ignores_case subject body :
  detect_industry (Str.lower subject) (Str.lower body) = detect_industry subject body.
Proof.
  unfold detect_industry, industry_text.
  rewrite !lower_app, !lower_idempotent. reflexivity.
Qed.






Lemma generate_sample_emails_cases industry :
  (industry = "banking" \/ industry = "insurance" \/ industry = "it_support") \/
  generate_sample_emails industry = generate_sample_emails "banking".
Proof.
  destruct (String.eqb_spec "banking" industry) as [ <- | Hb ]; [auto|].
  destruct (String.eqb_spec "insurance" industry) as [ <- | Hi ]; [auto|].
  destruct (String.eqb_spec "it_support" industry) as [ <- | Ht ]; [auto|].
  right. unfold generate_sample_emails.
  change (dict_get industry base_emails)
    with (if String.eqb "banking" industry then dict_get "banking" base_emails
          else if String.eqb "insurance" industry then dict_get "insurance" base_emails
          else if String.eqb "it_support" industry then dict_get "it_support" base_emails
          else None).
  apply String.eqb_neq in Hb, Hi, Ht. rewrite Hb, Hi, Ht. reflexivity.
Qed.

(** An industry that is not one of the three with a list of its own, the
    tags "other" and "unknown" among them, is served the banking list. *)
Theorem sample_emails_default industry :
  industry <> "insurance" -> industry <> "it_support" ->
  generate_sample_emails industry = generate_sample_emails "banking".
Proof.
  intros Hi Ht.
  destruct (generate_sample_emails_cases industry) as [ [ -> | [ -> | -> ] ] | Heq ];
    congruence.
Qed.

(** Whatever industry is asked for, every sample email served carries the
    industry tag that [detect_industry] gives its own subject and body. *)
Theorem sample_emails_match_classifier industry email :
  In email (json_items (generate_sample_emails industry)) ->
  detect_industry (json_field "subject" email) (json_field "body" email)
    = json_field "industry" email.
Proof.
  assert (Hknown : forall tag,
             tag = "banking" \/ tag = "insurance" \/ tag = "it_support" ->
             forall e, In e (json_items (generate_sample_emails tag)) ->
                       detect_industry (json_field "subject" e) (json_field "body" e)
                       = json_field "industry" e).
  { intros tag [ -> | [ -> | -> ] ] e [ <- | [ <- | [] ] ]; vm_compute; reflexivity. }
  destruct (generate_sample_emails_cases industry) as [ Htag | -> ].
  - apply Hknown, Htag.
  - apply Hknown. auto.
Qed.

(** The sample list for the industry detected in an email is that
    industry's own list: each of its emails carries the detected tag. *)
Theorem sample_emails_for_detected_industry subject body email :
  In email (json_items (generate_sample_emails (detect_industry subject body))) ->
  json_field "industry" email = detect_industry subject body.
Proof.
  rewrite detect_industry_cases.
  destruct (_ && _); [|destruct (_ <=? _)];
    intros [ <- | [ <- | [] ] ]; reflexivity.
Qed.

End MoreClassifier.

(** ** More on the response clean-up *)

Section MoreSanitizer.

Implicit Types (s document : string).

(** The next character of the pattern, met while the document is still
    inside a string literal. *)
Ltac peel_in_string Hlex r :=
  destruct r as [|?d r];
  [ simpl in Hlex; discriminate
  | match goal with
    | |- Str.startswith (String ?a ?p) _ = false =>
        change (Str.startswith (String a p) (String d (r ++ nl ++ fence)) = false);
        cbn [Str.startswith];
        destruct (Ascii.eqb_spec a d) as [ <- | ]; [simpl in Hlex | reflexivity]
    end ].

Lemma json_lexical_no_fence_plain r :
  json_lexical_from InString r = true ->
  Str.startswith ("``" ++ nl) (r ++ nl ++ fence) = false.
Proof.
  intros Hlex. change ("``" ++ nl) with (String "`"%char ("`" ++ nl)).
  peel_in_string Hlex r. change ("`" ++ nl) with (String "`"%char nl).
  peel_in_string Hlex r. change nl with (String "010"%char "").
  peel_in_string Hlex r. discriminate.
Qed.

Lemma replace_plain_opening_fence st document :
  json_lexical_from st document = true ->
  Str.replace_from (fence ++ nl) "" 0 (document ++ nl ++ fence) = document ++ nl ++ fence.
Proof.
  revert st. induction document as [|c r IH]; intros st Hlex; [reflexivity|].
  destruct (json_lexical_step _ _ _ Hlex) as [st' Hr].
  change (Str.replace_from (fence ++ nl) "" 0 (String c (r ++ nl ++ fence)) =
          String c (r ++ nl ++ fence)).
  cbn [Str.replace_from].
  assert (Hno : Str.startswith (fence ++ nl) (String c (r ++ nl ++ fence)) = false).
  { change (fence ++ nl) with (String "`"%char ("``" ++ nl)).
    cbn [Str.startswith].
    destruct (Ascii.eqb_spec "`"%char c) as [<-|]; [|reflexivity].
    destruct st; simpl in Hlex; try discriminate.
    apply json_lexical_no_fence_plain, Hlex. }
  rewrite Hno. f_equal. apply (IH st'), Hr.
Qed.

Lemma strip_plain_fenced document : Str.strip (plain_fenced document) = plain_fenced document.
Proof.
  unfold Str.strip. change (Str.lstrip (plain_fenced document)) with (plain_fenced document).
  unfold plain_fenced.
  assert (Hinner : Str.rstrip (document ++ nl ++ fence) = document ++ nl ++ fence).
  { apply rstrip_keeps_tail; [reflexivity | discriminate]. }
  apply rstrip_keeps_tail; [|discriminate].
  apply rstrip_keeps_tail; [exact Hinner|].
  destruct document; discriminate.
Qed.

(** A JSON document between two plain [```] lines, with no language tag
    on the opening one, is cleaned back to the document as well. *)
Theorem clean_response_plain_fence document :
  json_lexical document = true ->
  clean_response (plain_fenced document) = document.
Proof.
  intros Hlex. unfold clean_response. rewrite strip_plain_fenced.
  change (Str.startswith fence_json (plain_fenced document)) with false. cbv iota.
  change (Str.startswith fence (plain_fenced document)) with true. cbv iota.
  change (Str.replace (fence ++ nl) "" (plain_fenced document))
    with (Str.replace_from (fence ++ nl) "" 0 (document ++ nl ++ fence)).
  rewrite (replace_plain_opening_fence Outside) by exact Hlex.
  change (Str.replace (nl ++ fence) "" (document ++ nl ++ fence))
    with (Str.replace_from (nl ++ fence) "" 0 (document ++ nl ++ fence)).
  apply (replace_closing_fence Outside), Hlex.
Qed.

Lemma lstrip_all_space s t : all_space s = true -> Str.lstrip (s ++ t) = Str.lstrip t.
Proof.
  induction s as [|c s IH]; [reflexivity|]. cbn [all_space].
  intros [Hc Hs]%andb_prop.
  change (Str.lstrip (String c (s ++ t)) = Str.lstrip t).
  cbn [Str.lstrip]. rewrite Hc. apply IH, Hs.
Qed.

Lemma rstrip_all_space_nil s : all_space s = true -> Str.rstrip s = "".
Proof.
  induction s as [|c s IH]; [reflexivity|]. cbn [all_space].
  intros [Hc Hs]%andb_prop. cbn [Str.rstrip]. rewrite (IH Hs), Hc. reflexivity.
Qed.

Lemma rstrip_all_space s t : all_space t = true -> Str.rstrip (s ++ t) = Str.rstrip s.
Proof.
  intros Ht. induction s as [|c s IH]; [apply rstrip_all_space_nil, Ht|].
  change (Str.rstrip (String c (s ++ t)) = Str.rstrip (String c s)).
  cbn [Str.rstrip]. rewrite IH. reflexivity.
Qed.

(** White space before the opening fence and after the closing one, a
    final line feed for instance, does not get in the way: the fenced
    JSON document is still cleaned back to itself. *)
Theorem clean_response_fenced_with_space before after document :
  all_space before = true -> all_space after = true ->
  json_lexical document = true ->
  clean_response (before ++ fenced document ++ after) = document.
Proof.
  intros Hb Ha Hlex.
  assert (Hstrip : Str.strip (before ++ fenced document ++ after) = fenced document).
  { unfold Str.strip. rewrite (lstrip_all_space _ _ Hb).
    change (Str.lstrip (fenced document ++ after)) with (fenced document ++ after).
    rewrite (rstrip_all_space _ _ Ha).
    pose proof (strip_fenced document) as Hs. unfold Str.strip in Hs.
    change (Str.lstrip (fenced document)) with (fenced document) in Hs. exact Hs. }
  assert (Hclean : clean_response (before ++ fenced document ++ after)
                   = clean_response (fenced document)).
  { unfold clean_response. rewrite Hstrip, strip_fenced. reflexivity. }
  rewrite Hclean. unfold clean_response. rewrite strip_fenced.
  change (Str.startswith fence_json (fenced document)) with true. cbv iota.
  change (Str.replace (fence_json ++ nl) "" (fenced document))
    with (Str.replace_from (fence_json ++ nl) "" 0 (document ++ nl ++ fence)).
  rewrite (replace_opening_fence Outside) by exact Hlex.
  change (Str.replace (nl ++ fence) "" (document ++ nl ++ fence))
    with (Str.replace_from (nl ++ fence) "" 0 (document ++ nl ++ fence)).
  rewrite (replace_closing_fence Outside) by exact Hlex.
  assert (Hno : Str.startswith fence document = false).
  { destruct document as [|c r]; [reflexivity|].
    unfold fence. cbn [Str.startswith].
    destruct (Ascii.eqb_spec "`"%char c) as [<-|]; [|reflexivity].
    unfold json_lexical in Hlex. simpl in Hlex. discriminate. }
  rewrite Hno. reflexivity.
Qed.

(** The same, with any text after the document. *)
Ltac peel_in_string_before tail Hlex r :=
  destruct r as [|?d r];
  [ simpl in Hlex; discriminate
  | match goal with
    | |- Str.startswith (String ?a ?p) _ = false =>
        change (Str.startswith (String a p) (String d (r ++ tail)) = false);
        cbn [Str.startswith];
        destruct (Ascii.eqb_spec a d) as [ <- | ]; [simpl in Hlex | reflexivity]
    end ].

(** A JSON document holds no opening fence line, and none can start in it
    and end in the text that follows. *)
Lemma replace_opening_fence_before st document tail :
  json_lexical_from st document = true ->
  Str.replace_from (fence_json ++ nl) "" 0 (document ++ tail) =
    document ++ Str.replace_from (fence_json ++ nl) "" 0 tail.
Proof.
  revert st. induction document as [|c r IH]; intros st Hlex; [reflexivity|].
  destruct (json_lexical_step _ _ _ Hlex) as [st' Hr].
  change (Str.replace_from (fence_json ++ nl) "" 0 (String c (r ++ tail)) =
          String c (r ++ Str.replace_from (fence_json ++ nl) "" 0 tail)).
  cbn [Str.replace_from].
  assert (Hno : Str.startswith (fence_json ++ nl) (String c (r ++ tail)) = false).
  { change (fence_json ++ nl) with (String "`"%char ("``json" ++ nl)).
    cbn [Str.startswith].
    destruct (Ascii.eqb_spec "`"%char c) as [ <- | ]; [|reflexivity].
    destruct st; simpl in Hlex; try discriminate.
    change ("``json" ++ nl) with (String "`"%char ("`json" ++ nl)).
    peel_in_string_before tail Hlex r.
    change ("`json" ++ nl) with (String "`"%char ("json" ++ nl)).
    peel_in_string_before tail Hlex r.
    change ("json" ++ nl) with (String "j"%char ("son" ++ nl)).
    peel_in_string_before tail Hlex r.
    change ("son" ++ nl) with (String "s"%char ("on" ++ nl)).
    peel_in_string_before tail Hlex r.
    change ("on" ++ nl) with (String "o"%char ("n" ++ nl)).
    peel_in_string_before tail Hlex r.
    change ("n" ++ nl) with (String "n"%char nl).
    peel_in_string_before tail Hlex r.
    change nl with (String "010"%char "").
    peel_in_string_before tail Hlex r. discriminate. }
  rewrite Hno. f_equal. apply (IH st'), Hr.
Qed.

(** A JSON document holds no closing fence line either, and none starts at
    its end unless the text that follows starts with a fence. *)
Lemma replace_closing_fence_before st document tail :
  json_lexical_from st document = true ->
  Str.startswith fence tail = false ->
  Str.replace_from (nl ++ fence) "" 0 (document ++ tail) =
    document ++ Str.replace_from (nl ++ fence) "" 0 tail.
Proof.
  intros Hlex Htail. revert st Hlex.
  induction document as [|c r IH]; intros st Hlex; [reflexivity|].
  destruct (json_lexical_step _ _ _ Hlex) as [st' Hr].
  change (Str.replace_from (nl ++ fence) "" 0 (String c (r ++ tail)) =
          String c (r ++ Str.replace_from (nl ++ fence) "" 0 tail)).
  cbn [Str.replace_from].
  assert (Hno : Str.startswith (nl ++ fence) (String c (r ++ tail)) = false).
  { change (nl ++ fence) with (String "010"%char fence).
    cbn [Str.startswith].
    destruct (Ascii.eqb_spec "010"%char c) as [ <- | ]; [|reflexivity].
    destruct st; simpl in Hlex; try discriminate.
    destruct r as [|d r]; [exact Htail|].
    change (Str.startswith fence (String d (r ++ tail)) = false).
    unfold fence at 1. cbn [Str.startswith].
    destruct (Ascii.eqb_spec "`"%char d) as [ <- | ]; [|reflexivity].
    simpl in Hlex. discriminate. }
  rewrite Hno. f_equal. apply (IH st'), Hr.
Qed.

Lemma rstrip_ends_with_fence s : Str.rstrip (s ++ fence) = s ++ fence.
Proof. apply rstrip_keeps_tail; [reflexivity | discriminate]. Qed.

(** Two fenced JSON documents in one reply: the clean-up removes all four
    fence lines, the inner two like the outer two, and hands on the two
    documents one after the other. *)
Theorem clean_response_two_fences first second :
  json_lexical first = true -> json_lexical second = true ->
  clean_response (fenced first ++ nl ++ fenced second) = first ++ nl ++ second.
Proof.
  intros Hfirst Hsecond. unfold clean_response.
  assert (Hstrip : Str.strip (fenced first ++ nl ++ fenced second)
                   = fenced first ++ nl ++ fenced second).
  { unfold Str.strip.
    change (Str.lstrip (fenced first ++ nl ++ fenced second))
      with (fenced first ++ nl ++ fenced second).
    unfold fenced. rewrite !str_app_assoc.
    rewrite <- !(str_app_assoc _ _ fence) at 1.
    rewrite rstrip_ends_with_fence, !str_app_assoc. reflexivity. }
  rewrite Hstrip.
  change (Str.startswith fence_json (fenced first ++ nl ++ fenced second)) with true.
  cbv iota.
  assert (Hopen : Str.replace (fence_json ++ nl) "" (fenced first ++ nl ++ fenced second)
                  = first ++ nl ++ fence ++ nl ++ second ++ nl ++ fence).
  { unfold fenced. rewrite !str_app_assoc.
    change (Str.replace (fence_json ++ nl) ""
              (fence_json ++ nl ++ first ++ nl ++ fence ++ nl ++ fence_json ++ nl
                 ++ second ++ nl ++ fence))
      with (Str.replace_from (fence_json ++ nl) "" 0
              (first ++ nl ++ fence ++ nl ++ fence_json ++ nl ++ second ++ nl ++ fence)).
    rewrite (replace_opening_fence_before Outside) by exact Hfirst.
    change (Str.replace_from (fence_json ++ nl) "" 0
              (nl ++ fence ++ nl ++ fence_json ++ nl ++ second ++ nl ++ fence))
      with (nl ++ fence ++ nl
              ++ Str.replace_from (fence_json ++ nl) "" 0 (second ++ nl ++ fence)).
    rewrite (replace_opening_fence Outside) by exact Hsecond. reflexivity. }
  rewrite Hopen.
  assert (Hclose : Str.replace (nl ++ fence) "" (first ++ nl ++ fence ++ nl ++ second ++ nl ++ fence)
                   = first ++ nl ++ second).
  { change (Str.replace (nl ++ fence) "" (first ++ nl ++ fence ++ nl ++ second ++ nl ++ fence))
      with (Str.replace_from (nl ++ fence) "" 0
              (first ++ nl ++ fence ++ nl ++ second ++ nl ++ fence)).
    rewrite (replace_closing_fence_before Outside) by (exact Hfirst || reflexivity).
    f_equal.
    change (Str.replace_from (nl ++ fence) "" 0 (nl ++ fence ++ nl ++ second ++ nl ++ fence))
      with (Str.replace_from (nl ++ fence) "" 0 (String "010"%char (second ++ nl ++ fence))).
    cbn [Str.replace_from].
    change (Str.startswith (nl ++ fence) (String "010"%char (second ++ nl ++ fence)))
      with (Str.startswith fence (second ++ nl ++ fence)).
    rewrite (json_lexical_no_fence _ Hsecond).
    rewrite (replace_closing_fence Outside) by exact Hsecond. reflexivity. }
  rewrite Hclose.
  assert (Hno : Str.startswith fence (first ++ nl ++ second) = false).
  { destruct first as [|c r]; [reflexivity|].
    change (Str.startswith fence (String c (r ++ nl ++ second)) = false).
    unfold fence. cbn [Str.startswith].
    destruct (Ascii.eqb_spec "`"%char c) as [ <- | ]; [|reflexivity].
    unfold json_lexical in Hfirst. simpl in Hfirst. discriminate. }
  rewrite Hno. reflexivity.
Qed.

End MoreSanitizer.

(** ** The statements at concrete inputs *)

Lemma detect_industry_single_list_witness :
  detect_industry "Loan Application Status Inquiry" "Please check my loan" = "banking" /\
  detect_industry "Claim status" "My policy covers this accident" = "insurance" /\
  detect_industry "Locked out" "I forgot my password" = "it_support".
Proof.
  split; [|split].
  - apply (proj1 (detect_industry_single_list _ _)); vm_compute; auto.
  - apply (proj1 (proj2 (detect_industry_single_list _ _))); vm_compute; auto.
  - apply (proj2 (proj2 (detect_industry_single_list _ _))); vm_compute; auto.
Defined.

Lemma no_submission_overwrites_witness :
  let requests := [Sample.first_draw; AnalyzeEmail Sample.analyze_parcel Sample.down;
                   SubmitEmail Sample.vpn "id-2" "2024-05-01T09:32:00"] in
  NoDup (uuids_drawn requests) /\
  size (emails_db (run (H := Sample.runtime) init_world requests)) = 2.
Proof.
  intros requests.
  assert (Hnodup : NoDup (uuids_drawn requests)).
  { repeat constructor; rewrite ?list_elem_of_In; simpl; intuition discriminate. }
  split; [exact Hnodup|].
  exact (no_submission_overwrites (H := Sample.runtime) requests Hnodup).
Defined.

Lemma not_found_is_answered_500_witness :
  analysis_cache init_world !! "missing" = None /\
  status_of (respond (fst (execute_action (H := Sample.runtime)
    {| ActionExecution.email_id := "missing";
       ActionExecution.action_id := "acknowledge";
       ActionExecution.action_label := "Acknowledge Receipt" |}
    Sample.down "2024-05-01T09:31:00" init_world))) = 500 /\
  (emails_db init_world !! "missing" = None ->
   respond (fst (analyze_email (H := Sample.runtime)
                   {| AnalysisRequest.email_id := "missing" |} Sample.down init_world)) =
     HttpError 500 "404: Email not found").
Proof.
  split; [reflexivity|].
  apply (not_found_is_answered_500 (H := Sample.runtime) init_world "missing").
  reflexivity.
Defined.

Lemma clean_response_fenced_json_witness :
  let document := json_dumps fallback_analysis in
  json_lexical document = true /\
  clean_response (fenced document) = document /\
  Sample.loads (clean_response (fenced document)) = Sample.loads document /\
  clean_response document = Str.strip document.
Proof.
  split; [vm_compute; reflexivity|].
  apply (clean_response_fenced_json (H := Sample.runtime)).
  vm_compute; reflexivity.
Defined.

Lemma analysis_is_cached_for_good_witness :
  let w1 := cached "id-1" fallback_analysis
              (logged [analysis_prompt (submitted Sample.parcel "id-1" "2024-05-01T09:30:00")]
                      Sample.submitted_world) in
  analyze_email (H := Sample.runtime) Sample.analyze_parcel Sample.down Sample.submitted_world
    = (Ok fallback_analysis, w1) /\
  exists value,
    analysis_cache w1 !! "id-1" = Some value /\
    Sample.new_AnalysisResponse value = Ok fallback_analysis /\
    forall requests model',
      let w2 := run (H := Sample.runtime) w1 requests in
      analysis_cache w2 !! "id-1" = Some value /\
      analyze_email (H := Sample.runtime) Sample.analyze_parcel model' w2
        = (Ok fallback_analysis, w2).
Proof.
  intros w1.
  assert (Hfirst : analyze_email (H := Sample.runtime) Sample.analyze_parcel Sample.down
                     Sample.submitted_world = (Ok fallback_analysis, w1)).
  { vm_compute. reflexivity. }
  split; [exact Hfirst|].
  exact (analysis_is_cached_for_good (H := Sample.runtime) _ _ _ _ _ Hfirst).
Defined.



Lemma parse_failure_retries_once_witness :
  let email := submitted Sample.parcel "id-1" "2024-05-01T09:30:00" in
  let w := Sample.submitted_world in
  let out := analyze_email (H := Sample.runtime) Sample.analyze_parcel Sample.prose w in
  (analysis_cache w !! "id-1" = None /\ emails_db w !! "id-1" = Some email /\
   Sample.loads (clean_response "Sorry, I cannot help with that.") = None) /\
  prompts_sent (snd out) = [analysis_prompt email; fallback_prompt] /\
  respond (fst out) = HttpError 500 "Expecting value" /\
  analysis_cache (snd out) = analysis_cache w.
Proof.
  assert (Hc : analysis_cache Sample.submitted_world !! "id-1" = None) by reflexivity.
  assert (Hd : emails_db Sample.submitted_world !! "id-1"
               = Some (submitted Sample.parcel "id-1" "2024-05-01T09:30:00"))
    by (vm_compute; reflexivity).
  assert (Hl : Sample.loads (clean_response "Sorry, I cannot help with that.") = None)
    by (vm_compute; reflexivity).
  split; [auto|].
  exact (parse_failure_retries_once (H := Sample.runtime) Sample.submitted_world
           Sample.analyze_parcel Sample.prose _ Hc Hd Hl).
Defined.

Lemma step_frame_witness :
  let w := Sample.submitted_world in
  let r := SubmitEmail Sample.vpn "id-2" "2024-05-01T09:32:00" in
  fresh_identifier w r /\
  emails_db w ⊆ emails_db (step (H := Sample.runtime) w r) /\
  analysis_cache w ⊆ analysis_cache (step (H := Sample.runtime) w r) /\
  emails_db (step (H := Sample.runtime) w r) =
    <["id-2" := submitted Sample.vpn "id-2" "2024-05-01T09:32:00"]> (emails_db w) /\
  size (emails_db (step (H := Sample.runtime) w r)) = S (size (emails_db w)) /\
  analysis_cache (step (H := Sample.runtime) w r) = analysis_cache w.
Proof.
  assert (Hfresh : fresh_identifier Sample.submitted_world
                     (SubmitEmail Sample.vpn "id-2" "2024-05-01T09:32:00")) by reflexivity.
  split; [exact Hfresh|].
  exact (step_frame (H := Sample.runtime) _ _ Hfresh).
Defined.

(** C4 as first stated, refuted: the patterns removed are the opening
    marker with a line feed after it and the closing marker with a line
    feed before it.  A fenced block whose lines end in carriage return and
    line feed keeps its opening marker and a carriage return, and a
    document set between the markers with no line break keeps both
    markers.  What is left starts with a backquote in both cases: it has
    not the lexical shape of a JSON text, while the bare document has, and
    it does not parse, while the bare document does. *)
Lemma clean_response_other_line_breaks :
  let reply := fence_json ++ cr ++ nl ++ "{}" ++ cr ++ nl ++ fence in
  let unbroken := fence_json ++ "{}" ++ fence in
  (clean_response reply = fence_json ++ cr ++ nl ++ "{}" ++ cr /\
   clean_response unbroken = unbroken) /\
  (json_lexical "{}" = true /\
   json_lexical (clean_response reply) = false /\
   json_lexical (clean_response unbroken) = false) /\
  (Sample.loads (clean_response reply) <> Sample.loads "{}" /\
   Sample.loads (clean_response unbroken) <> Sample.loads "{}").
Proof. vm_compute. repeat split; discriminate. Qed.

(** C10 as first stated, refuted: the model answers the empty JSON object;
    it parses, is written to the cache, and is then rejected by the
    response model, so the client gets status 500 from a request that did
    change the cache. *)
Lemma analyze_error_after_cache_write :
  let w := Sample.submitted_world in
  let out := analyze_email (H := Sample.runtime) Sample.analyze_parcel Sample.empty_object w in
  status_of (respond (fst out)) = 500 /\
  analysis_cache w !! "id-1" = None /\
  analysis_cache (snd out) !! "id-1" = Some (JObject []) /\
  analysis_cache (snd out) <> analysis_cache w.
Proof.
  split; [reflexivity|]. split; [reflexivity|]. split; [reflexivity|].
  intros Heq. apply (f_equal (fun m => m !! "id-1")) in Heq. vm_compute in Heq. discriminate.
Qed.


Lemma execute_action_fallback_witness :
  (emails_db Sample.analyzed_world !! "id-1" = Some Sample.parcel_record /\
   analysis_cache Sample.analyzed_world !! "id-1" = Some fallback_analysis /\
   action_fields fallback_analysis
     = Ok (JString "unknown", JString "Customer inquiry received") /\
   Sample.loads (clean_response "Sorry, I cannot help with that.") = None) /\
  execute_action (H := Sample.runtime) Sample.acknowledge_parcel Sample.prose
      "2024-05-01T09:40:00" Sample.analyzed_world =
    (Ok (fallback_action "Acknowledge Receipt" "2024-05-01T09:40:00"),
     logged [Sample.acknowledge_prompt] Sample.analyzed_world).
Proof.
  assert (Hd : emails_db Sample.analyzed_world !! "id-1" = Some Sample.parcel_record)
    by (vm_compute; reflexivity).
  assert (Hc : analysis_cache Sample.analyzed_world !! "id-1" = Some fallback_analysis)
    by (vm_compute; reflexivity).
  assert (Hf : action_fields fallback_analysis
               = Ok (JString "unknown", JString "Customer inquiry received"))
    by reflexivity.
  assert (Hl : Sample.loads (clean_response "Sorry, I cannot help with that.") = None)
    by (vm_compute; reflexivity).
  split; [auto|].
  exact (execute_action_fallback (H := Sample.runtime) Sample.analyzed_world
           Sample.acknowledge_parcel Sample.prose "2024-05-01T09:40:00" _ _ _ _ Hd Hc Hf Hl).
Defined.

Lemma execute_action_unreadable_analysis_witness :
  (emails_db Sample.poisoned_world !! "id-1" = Some Sample.parcel_record /\
   analysis_cache Sample.poisoned_world !! "id-1" = Some (JObject []) /\
   action_fields (JObject []) = Raise (KeyError "industry")) /\
  execute_action (H := Sample.runtime) Sample.acknowledge_parcel Sample.prose
      "2024-05-01T09:40:00" Sample.poisoned_world =
    (Raise (HTTPException 500 "industry"), Sample.poisoned_world).
Proof.
  assert (Hd : emails_db Sample.poisoned_world !! "id-1" = Some Sample.parcel_record)
    by (vm_compute; reflexivity).
  assert (Hc : analysis_cache Sample.poisoned_world !! "id-1" = Some (JObject []))
    by (vm_compute; reflexivity).
  assert (Hf : action_fields (JObject []) = Raise (KeyError "industry")) by reflexivity.
  split; [auto|].
  exact (execute_action_unreadable_analysis (H := Sample.runtime) Sample.poisoned_world
           Sample.acknowledge_parcel Sample.prose "2024-05-01T09:40:00" _ _ _ Hd Hc Hf).
Defined.

Lemma execute_action_model_down_witness :
  (emails_db Sample.analyzed_world !! "id-1" = Some Sample.parcel_record /\
   analysis_cache Sample.analyzed_world !! "id-1" = Some fallback_analysis /\
   Sample.loads (json_dumps fallback_analysis) = Some fallback_analysis /\
   Sample.new_ActionResponse fallback_analysis = Raise (ValidationError "ActionResponse")) /\
  execute_action (H := Sample.runtime) Sample.acknowledge_parcel Sample.down
      "2024-05-01T09:40:00" Sample.analyzed_world =
    (Raise (HTTPException 500 "ActionResponse"),
     logged [Sample.acknowledge_prompt] Sample.analyzed_world).
Proof.
  assert (Hd : emails_db Sample.analyzed_world !! "id-1" = Some Sample.parcel_record)
    by (vm_compute; reflexivity).
  assert (Hc : analysis_cache Sample.analyzed_world !! "id-1" = Some fallback_analysis)
    by (vm_compute; reflexivity).
  assert (Hf : action_fields fallback_analysis
               = Ok (JString "unknown", JString "Customer inquiry received"))
    by reflexivity.
  assert (Hl : Sample.loads (json_dumps fallback_analysis) = Some fallback_analysis)
    by (vm_compute; reflexivity).
  assert (He : Sample.new_ActionResponse fallback_analysis
               = Raise (ValidationError "ActionResponse"))
    by (vm_compute; reflexivity).
  split; [auto|].
  exact (execute_action_model_down (H := Sample.runtime) Sample.analyzed_world
           Sample.acknowledge_parcel Sample.down "2024-05-01T09:40:00" _ _ _ _
           (ServiceError "503 unavailable") _ Hd Hc Hf eq_refl Hl He).
Defined.

Lemma rejected_analysis_is_cached_for_good_witness :
  let out := analyze_email (H := Sample.runtime) Sample.analyze_parcel Sample.empty_object
               Sample.submitted_world in
  (analysis_cache Sample.submitted_world !! "id-1" = None /\
   emails_db Sample.submitted_world !! "id-1" = Some Sample.parcel_record /\
   Sample.loads (clean_response "{}") = Some (JObject []) /\
   Sample.new_AnalysisResponse (JObject []) = Raise (ValidationError "AnalysisResponse")) /\
  fst out = Raise (HTTPException 500 "AnalysisResponse") /\
  forall requests model',
    let w2 := run (H := Sample.runtime) (snd out) requests in
    analyze_email (H := Sample.runtime) Sample.analyze_parcel model' w2
      = (Raise (HTTPException 500 "AnalysisResponse"), w2).
Proof.
  assert (Hc : analysis_cache Sample.submitted_world !! "id-1" = None) by reflexivity.
  assert (Hd : emails_db Sample.submitted_world !! "id-1" = Some Sample.parcel_record)
    by (vm_compute; reflexivity).
  assert (Hl : Sample.loads (clean_response "{}") = Some (JObject []))
    by (vm_compute; reflexivity).
  assert (He : Sample.new_AnalysisResponse (JObject [])
               = Raise (ValidationError "AnalysisResponse")) by reflexivity.
  split; [auto|].
  exact (rejected_analysis_is_cached_for_good (H := Sample.runtime) Sample.submitted_world
           Sample.analyze_parcel Sample.empty_object _ _ _ Hc Hd Hl He).
Defined.

Lemma stored_records_are_as_submitted_witness :
  emails_db (run (H := Sample.runtime) init_world [Sample.first_draw]) !! "id-1"
    = Some Sample.parcel_record /\
  EmailRecord.id Sample.parcel_record = "id-1" /\
  EmailRecord.industry Sample.parcel_record =
    detect_industry "Where is my parcel" "My order has not arrived yet" /\
  EmailRecord.sentiment Sample.parcel_record = "neutral" /\
  EmailRecord.status Sample.parcel_record = "new".
Proof.
  assert (Hrec : emails_db (run (H := Sample.runtime) init_world [Sample.first_draw]) !! "id-1"
                 = Some Sample.parcel_record) by (vm_compute; reflexivity).
  split; [exact Hrec|].
  exact (stored_records_are_as_submitted (H := Sample.runtime) _ _ _ Hrec).
Defined.

Lemma stored_record_persists_witness :
  let requests := [AnalyzeEmail Sample.analyze_parcel Sample.empty_object;
                   SubmitEmail Sample.vpn "id-2" "2024-05-01T09:32:00";
                   ExecuteAction Sample.acknowledge_parcel Sample.down "2024-05-01T09:40:00"] in
  (emails_db Sample.submitted_world !! "id-1" = Some Sample.parcel_record /\
   "id-1" ∉ uuids_drawn requests) /\
  emails_db (run (H := Sample.runtime) Sample.submitted_world requests) !! "id-1"
    = Some Sample.parcel_record.
Proof.
  intros requests.
  assert (Hrec : emails_db Sample.submitted_world !! "id-1" = Some Sample.parcel_record)
    by (vm_compute; reflexivity).
  assert (Hnotin : "id-1" ∉ uuids_drawn requests).
  { apply not_elem_of_cons. split; [discriminate | apply not_elem_of_nil]. }
  split; [auto|].
  exact (stored_record_persists (H := Sample.runtime) requests _ _ _ Hrec Hnotin).
Defined.

Lemma sample_emails_default_witness :
  ("other" <> "insurance" /\ "other" <> "it_support") /\
  generate_sample_emails "other" = generate_sample_emails "banking".
Proof.
  assert (Hi : "other" <> "insurance") by discriminate.
  assert (Ht : "other" <> "it_support") by discriminate.
  split; [auto|]. exact (sample_emails_default "other" Hi Ht).
Defined.

Lemma sample_emails_match_classifier_witness :
  let email := List.hd JNull (json_items (generate_sample_emails "insurance")) in
  In email (json_items (generate_sample_emails "insurance")) /\
  detect_industry "Auto Claim Status Update Required" (json_field "body" email) = "insurance".
Proof.
  intros email.
  assert (Hin : In email (json_items (generate_sample_emails "insurance"))) by (left; reflexivity).
  split; [exact Hin|].
  exact (sample_emails_match_classifier "insurance" email Hin).
Defined.

Lemma sample_emails_for_detected_industry_witness :
  let subject := "VPN Connection Problem" in
  let body := "The vpn drops, the network is gone and my password is rejected" in
  let email := List.hd JNull (json_items (generate_sample_emails "it_support")) in
  In email (json_items (generate_sample_emails (detect_industry subject body))) /\
  json_field "industry" email = detect_industry subject body.
Proof.
  intros subject body email.
  assert (Hin : In email (json_items (generate_sample_emails (detect_industry subject body))))
    by (left; reflexivity).
  split; [exact Hin|].
  exact (sample_emails_for_detected_industry subject body email Hin).
Defined.

Lemma clean_response_plain_fence_witness :
  let document := json_dumps fallback_analysis in
  json_lexical document = true /\ clean_response (plain_fenced document) = document.
Proof.
  intros document.
  assert (Hlex : json_lexical document = true) by (vm_compute; reflexivity).
  split; [exact Hlex|]. exact (clean_response_plain_fence document Hlex).
Defined.

Lemma clean_response_fenced_with_space_witness :
  let document := json_dumps fallback_analysis in
  (all_space (" " ++ nl) = true /\ all_space nl = true /\ json_lexical document = true) /\
  clean_response ((" " ++ nl) ++ fenced document ++ nl) = document.
Proof.
  intros document.
  assert (Hlex : json_lexical document = true) by (vm_compute; reflexivity).
  split; [auto|].
  exact (clean_response_fenced_with_space (" " ++ nl) nl document eq_refl eq_refl Hlex).
Defined.

Lemma clean_response_two_fences_witness :
  let document := json_dumps fallback_analysis in
  (json_lexical "{}" = true /\ json_lexical document = true) /\
  clean_response (fenced "{}" ++ nl ++ fenced document) = "{}" ++ nl ++ document.
Proof.
  intros document.
  assert (Hlex : json_lexical document = true) by (vm_compute; reflexivity).
  split; [auto|].
  exact (clean_response_two_fences "{}" document eq_refl Hlex).
Defined.


Lemma cache_entries_come_from_analyze_witness :
  let requests := [Sample.first_draw; AnalyzeEmail Sample.analyze_parcel Sample.down] in
  is_Some (analysis_cache (run (H := Sample.runtime) init_world requests) !! "id-1") /\
  "id-1" ∈ analyzed_ids requests.
Proof.
  intros requests.
  assert (Hk : is_Some (analysis_cache (run (H := Sample.runtime) init_world requests) !! "id-1")).
  { exists fallback_analysis. vm_compute. reflexivity. }
  split; [exact Hk|].
  exact (cache_entries_come_from_analyze (H := Sample.runtime) requests "id-1" Hk).
Defined.

Lemma model_outage_is_cached_for_good_witness :
  let out := analyze_email (H := Sample.runtime) Sample.analyze_parcel Sample.down
               Sample.submitted_world in
  (analysis_cache Sample.submitted_world !! "id-1" = None /\
   emails_db Sample.submitted_world !! "id-1" = Some Sample.parcel_record /\
   Sample.loads (json_dumps fallback_analysis) = Some fallback_analysis) /\
  out = (Ok fallback_analysis,
         cached "id-1" fallback_analysis
           (logged [analysis_prompt Sample.parcel_record] Sample.submitted_world)) /\
  forall requests,
    analysis_cache (run (H := Sample.runtime) (snd out) requests) !! "id-1"
      = Some fallback_analysis.
Proof.
  assert (Hc : analysis_cache Sample.submitted_world !! "id-1" = None) by reflexivity.
  assert (Hd : emails_db Sample.submitted_world !! "id-1" = Some Sample.parcel_record)
    by (vm_compute; reflexivity).
  assert (Hl : Sample.loads (json_dumps fallback_analysis) = Some fallback_analysis)
    by (vm_compute; reflexivity).
  split; [auto|].
  exact (model_outage_is_cached_for_good (H := Sample.runtime) Sample.submitted_world
           Sample.analyze_parcel Sample.down _ (ServiceError "503 unavailable")
           Hc Hd eq_refl Hl).
Defined.
